(** * DoseWise: the detection-to-adherence pipeline of [src/App.jsx]

    A shallow embedding of the decision logic of the [DoseWiseApp]
    component: the detection gate ([runPrediction]), the schedule policy
    ([checkPillValidity]), the adherence ledger ([handleDetection],
    [processSuccess], [calculateStreak]), the reminder sweep
    ([checkReminders]) and the persistence paths ([loadLocalData],
    [generateMockAdherence], [clearData]).

    Conventions of the embedding:
    - a classifier probability is an IEEE 754 double, a primitive float of
      Rocq; counters, hours and minutes are integers in [Z].  A counter of
      the source is a double as well: it holds an integer exactly, and adds
      one to it exactly, up to [MAX_SAFE_INTEGER], and what is stated about
      an increment is stated for counters in that range;
    - the component's state cells, the day objects, the blob store and the
      calls to outside collaborators make up a [World]; a handler is a
      function from worlds to worlds;
    - a handler is a closure of one render of the component: it reads
      [adherenceLog] and [stats] from the [Render] it belongs to and writes
      through the setters into the world;
    - day objects live in a store and arrays hold references to them, since
      the source assigns to fields of objects that several arrays share;
    - a handler reads the clock once; the readings it uses are the fields of
      [Now];
    - [new Date(s)] on a stored date string is a parameter, [Date_getTime],
      of what depends on it. *)

From Stdlib Require Import ZArith Floats Ascii String List Lia Bool Sorted.
From stdpp Require Import base option list gmap strings sorting.

Open Scope string_scope.
Open Scope Z_scope.

(** ** Strings

    Labels, dates and timestamps are JavaScript strings.  The labels of a
    classifier are its class names, ASCII identifiers such as
    [pill_morning]; the embedding uses Rocq's byte strings, on which
    [toLowerCase] is the ASCII lower-casing. *)

Module Str.

(** [s === t] *)
Definition eqb (s t : string) : bool := String.eqb s t.

Definition lower_ascii (c : ascii) : ascii :=
  let n := nat_of_ascii c in
  if ((65 <=? n) && (n <=? 90))%nat then ascii_of_nat (n + 32) else c.

(** [s.toLowerCase()] *)
Fixpoint toLowerCase (s : string) : string :=
  match s with
  | EmptyString => EmptyString
  | String c rest => String (lower_ascii c) (toLowerCase rest)
  end.

(** [hay] starts with [needle] *)
Fixpoint startsWith (needle hay : string) : bool :=
  match needle, hay with
  | EmptyString, _ => true
  | String _ _, EmptyString => false
  | String a needle', String b hay' => Ascii.eqb a b && startsWith needle' hay'
  end.

(** [hay.includes(needle)] *)
Fixpoint includes (needle hay : string) : bool :=
  startsWith needle hay ||
  match hay with
  | EmptyString => false
  | String _ rest => includes needle rest
  end.

(** [s.replace(/_/g, ' ')] *)
Fixpoint replace_underscores (s : string) : string :=
  match s with
  | EmptyString => EmptyString
  | String c rest =>
      String (if Ascii.eqb c "_"%char then " "%char else c)
             (replace_underscores rest)
  end.

End Str.

(** ** Data model *)

(** The two dose slots of a day: the property keys ['morning'] and
    ['evening'] of a day object. *)
Inductive DoseType := Morning | Evening.

Global Instance DoseType_eq_dec : EqDecision DoseType.
Proof. solve_decision. Defined.

(** One slot of a day: [{ scheduled, taken, pillType }]; [taken] is [null]
    or the time string of the recording. *)
Record DoseRecord := {
  scheduled : string;
  taken : option string;
  pillType : string
}.

(** One day of the adherence log: [{ date, morning, evening }]. *)
Record DayLog := {
  date : string;
  morning : DoseRecord;
  evening : DoseRecord
}.

(** [day[type]] *)
Definition slot (ty : DoseType) (day : DayLog) : DoseRecord :=
  match ty with Morning => morning day | Evening => evening day end.

(** JavaScript truthiness of a [taken] field: [null] and the empty string
    are falsy. *)
Definition truthy (t : option string) : bool :=
  match t with
  | None => false
  | Some s => negb (Str.eqb s "")
  end.

(** [day[type].taken = t] *)
Definition set_taken (ty : DoseType) (t : string) (day : DayLog) : DayLog :=
  let upd (r : DoseRecord) :=
    {| scheduled := scheduled r; taken := Some t; pillType := pillType r |} in
  match ty with
  | Morning => {| date := date day; morning := upd (morning day); evening := evening day |}
  | Evening => {| date := date day; morning := morning day; evening := upd (evening day) |}
  end.

(** The cached statistics. *)
Record Stats := {
  currentStreak : Z;
  totalPillsTaken : Z;
  totalPillsScheduled : Z
}.

Inductive AlertType := info | success | warning.

Global Instance AlertType_eq_dec : EqDecision AlertType.
Proof. solve_decision. Defined.

Record Alert := { type : AlertType; message : string }.

(** One entry of the classifier's output: [{ className, probability }]. *)
Record Prediction := { className : string; probability : float }.

(** What the branches of [handleDetection] and [processSuccess] amount to.
    The source functions return nothing; the tag names the branch that was
    taken. *)
Inductive RecordOutcome := Accepted | AlreadyTaken | NotScheduled | Ignored.

Global Instance RecordOutcome_eq_dec : EqDecision RecordOutcome.
Proof. solve_decision. Defined.

(** The readings of [new Date()] that the handlers take. *)
Record Now := {
  isoDate : string;          (* toISOString().split('T')[0] *)
  hours : Z;                 (* getHours() *)
  minutes : Z;               (* getMinutes() *)
  localeTime : string;       (* toLocaleTimeString([], {hour:'2-digit', minute:'2-digit'}) *)
  isoDateDaysAgo : Z → string (* the same date reading, [i] days earlier *)
}.

Definition CONFIDENCE_THRESHOLD : float := 0.75%float.
Definition DETECTION_FREQUENCY : Z := 500.
Definition PILL_TYPES_MORNING : string := "pill_morning".
Definition PILL_TYPES_EVENING : string := "pill_evening".

(** ** Schedule policy: [checkPillValidity] *)

(** [{ isValid, type }]; the field [type] of the source is [vtype] here. *)
Record Validity := { isValid : bool; vtype : option DoseType }.

Definition checkPillValidity (now : Now) (detectedPill : string) : Validity :=
  let currentHour := hours now in
  let isMorningWindow := ((7 <=? currentHour) && (currentHour <=? 9))%Z in
  let isEveningWindow := ((19 <=? currentHour) && (currentHour <=? 21))%Z in
  if Str.eqb detectedPill PILL_TYPES_MORNING then
    {| isValid := isMorningWindow; vtype := Some Morning |}
  else if Str.eqb detectedPill PILL_TYPES_EVENING then
    {| isValid := isEveningWindow; vtype := Some Evening |}
  else {| isValid := false; vtype := None |}.

(** ** Detection gate: the selection loop of [runPrediction] *)

Definition noMatch : Prediction :=
  {| className := "no_pill"; probability := 0%float |}.

(** [if (p.probability > bestMatch.probability) bestMatch = p] *)
Definition better (bestMatch p : Prediction) : Prediction :=
  if (probability bestMatch <? probability p)%float then p else bestMatch.

(** [predictions.forEach(...)] from a given [bestMatch]. *)
Definition selectFrom (bestMatch : Prediction) (predictions : list Prediction) : Prediction :=
  fold_left better predictions bestMatch.

Definition selectBest (predictions : list Prediction) : Prediction :=
  selectFrom noMatch predictions.

(** ** The session

    Day objects are mutable and shared: [processSuccess] copies the log
    array ([[...adherenceLog]]) but not the day objects in it, and then
    assigns to a field of one of them.  The embedding therefore keeps the day
    objects in a store and lets arrays hold references.  A reference is an
    index into the store; objects are only ever added. *)

Abbreviation loc := nat.

(** The statistics object.  [loadLocalData] passes the whole [mockData]
    object to [setStats], so on a first run the object carries the mock
    array under [adherenceLog] as well; the spreads of [processSuccess] copy
    that property along. *)
Record StatsObj := {
  counters : Stats;
  adherenceLogProp : option (list loc)
}.

(** The document under ['dosewise_data'], as [JSON.stringify] writes it and
    [JSON.parse] reads it back. *)
Record StoredDoc := {
  doc_adherenceLog : list DayLog;
  doc_currentStreak : Z;
  doc_totalPillsTaken : Z;
  doc_totalPillsScheduled : Z
}.

(** A value of the blob store, by what the component reads from it.
    [Json doc] is text that [JSON.parse] turns into a value other than
    [null] whose four properties read, with the defaults of [loadLocalData],
    as [doc]: the documents that [JSON.stringify] writes, and JSON text
    without these properties as well, which reads as the empty log with
    zero counters.  [Text s] is any other text: the model URL, and, under
    the data key, text from which no document is read
    ([Detector.unreadable]). *)
Inductive Blob :=
| Json (doc : StoredDoc)
| Text (s : string).

Definition DATA_KEY : string := "dosewise_data".
Definition MODEL_URL_KEY : string := "dosewise_model_url".

Inductive TimerAction :=
| ClearAlert          (* () => setAlert(null) *)
| ClearAlertIfInfo.   (* () => setAlert(prev => prev?.type === 'info' ? null : prev) *)

(** Calls to the collaborators outside the component, in order. *)
Inductive Effect :=
| PlaySuccessSound
| SetTimeout (action : TimerAction) (ms : Z)
| ClearCanvas
| StrokeBox (label : string) (confidence : float) (isCorrect : bool)
| SendNotification (ty : DoseType)   (* sendNotification(type), the notification collaborator *)
| Reload.

Record World := {
  heap : list DayLog;
  adherenceLog : list loc;
  stats : StatsObj;
  alert : option Alert;
  prediction : string * float;
  modelUrl : string;
  localStorage : gmap string Blob;
  effects : list Effect
}.

(** What the closures of one render see of the state: the function bodies
    of the component read [adherenceLog] and [stats] as constants of the
    render that created them. *)
Record Render := {
  r_adherenceLog : list loc;
  r_stats : StatsObj
}.

Definition render (w : World) : Render :=
  {| r_adherenceLog := adherenceLog w; r_stats := stats w |}.

Definition setAlert (a : option Alert) (w : World) : World :=
  {| heap := heap w; adherenceLog := adherenceLog w; stats := stats w;
     alert := a; prediction := prediction w; modelUrl := modelUrl w;
     localStorage := localStorage w; effects := effects w |}.

Definition setPrediction (p : string * float) (w : World) : World :=
  {| heap := heap w; adherenceLog := adherenceLog w; stats := stats w;
     alert := alert w; prediction := p; modelUrl := modelUrl w;
     localStorage := localStorage w; effects := effects w |}.

Definition setAdherenceLog (log : list loc) (w : World) : World :=
  {| heap := heap w; adherenceLog := log; stats := stats w;
     alert := alert w; prediction := prediction w; modelUrl := modelUrl w;
     localStorage := localStorage w; effects := effects w |}.

Definition setStats (s : StatsObj) (w : World) : World :=
  {| heap := heap w; adherenceLog := adherenceLog w; stats := s;
     alert := alert w; prediction := prediction w; modelUrl := modelUrl w;
     localStorage := localStorage w; effects := effects w |}.

Definition setHeap (h : list DayLog) (w : World) : World :=
  {| heap := h; adherenceLog := adherenceLog w; stats := stats w;
     alert := alert w; prediction := prediction w; modelUrl := modelUrl w;
     localStorage := localStorage w; effects := effects w |}.

Definition setStorage (ls : gmap string Blob) (w : World) : World :=
  {| heap := heap w; adherenceLog := adherenceLog w; stats := stats w;
     alert := alert w; prediction := prediction w; modelUrl := modelUrl w;
     localStorage := ls; effects := effects w |}.

Definition emit (e : Effect) (w : World) : World :=
  {| heap := heap w; adherenceLog := adherenceLog w; stats := stats w;
     alert := alert w; prediction := prediction w; modelUrl := modelUrl w;
     localStorage := localStorage w; effects := (effects w ++ [e])%list |}.

(** The day objects an array refers to, in order. *)
Definition readLog (h : list DayLog) (log : list loc) : list DayLog :=
  omap (λ l, h !! l) log.

(** [log.find(l => l.date === today)], as the reference of the object. *)
Fixpoint findDay (h : list DayLog) (today : string) (log : list loc) : option loc :=
  match log with
  | [] => None
  | l :: rest =>
      match h !! l with
      | Some day => if Str.eqb (date day) today then Some l else findDay h today rest
      | None => findDay h today rest
      end
  end.

(** [log.findIndex(l => l.date === today)]; [None] is [-1]. *)
Fixpoint findIndex (h : list DayLog) (today : string) (log : list loc) : option nat :=
  match log with
  | [] => None
  | l :: rest =>
      match h !! l with
      | Some day => if Str.eqb (date day) today then Some 0%nat
                    else S <$> findIndex h today rest
      | None => S <$> findIndex h today rest
      end
  end.

(** [!log || !log[type].taken] is the negation of this. *)
Definition slotTaken (h : list DayLog) (ty : DoseType) (entry : option loc) : bool :=
  match entry with
  | None => false
  | Some l =>
      match h !! l with
      | Some day => truthy (taken (slot ty day))
      | None => false
      end
  end.

(** The three alerts of the detection handlers. *)
Definition identifiedAlert (label : string) : Alert :=
  {| type := info;
     message := "🔍 Identification: " +:+ Str.replace_underscores label +:+ " detected." |}.

Definition takenAlert (pillName : string) : Alert :=
  {| type := success;
     message := "✅ " +:+ Str.replace_underscores pillName +:+ " Taken!" |}.

Definition notScheduledAlert (label : string) : Alert :=
  {| type := warning;
     message := "⚠️ " +:+ Str.replace_underscores label +:+ " is not scheduled for now." |}.

Section Ledger.

(** [new Date(s).getTime()], a function of the platform; [None] is [NaN]
    (an invalid date). *)
Variable Date_getTime : string → option Z.

(** [(a, b) => new Date(b.date) - new Date(a.date)], with the [NaN] of an
    invalid date read as [0], as [sort] does.  With an invalid date in the
    log the comparator is not an order and the result of [sort] is the
    engine's choice: what is stated of the order is stated for valid
    dates. *)
Definition byDateDesc (a b : DayLog) : Z :=
  match Date_getTime (date b), Date_getTime (date a) with
  | Some tb, Some ta => tb - ta
  | _, _ => 0
  end.

(** [Array.prototype.sort] is stable: [x] goes before the first element
    it does not have to follow. *)
Fixpoint insertSorted (cmp : DayLog → DayLog → Z) (x : DayLog) (l : list DayLog) : list DayLog :=
  match l with
  | [] => [x]
  | y :: ys => if (cmp x y <=? 0)%Z then x :: y :: ys else y :: insertSorted cmp x ys
  end.

Fixpoint sortWith (cmp : DayLog → DayLog → Z) (l : list DayLog) : list DayLog :=
  match l with
  | [] => []
  | x :: xs => insertSorted cmp x (sortWith cmp xs)
  end.

(** [day.morning?.taken || day.evening?.taken] *)
Definition anyTaken (day : DayLog) : bool :=
  truthy (taken (morning day)) || truthy (taken (evening day)).

(** The [for ... of] loop of [calculateStreak], with its [break]. *)
Fixpoint streakLoop (sorted : list DayLog) (streak : Z) : Z :=
  match sorted with
  | [] => streak
  | day :: rest => if anyTaken day then streakLoop rest (streak + 1) else streak
  end.

Definition calculateStreak (logs : list DayLog) : Z :=
  let sorted := sortWith byDateDesc logs in
  streakLoop sorted 0.

Definition newDay (today takenTime pillName : string) (ty : DoseType) : DayLog :=
  {| date := today;
     morning := {| scheduled := "08:00";
                   taken := if decide (ty = Morning) then Some takenTime else None;
                   pillType := pillName |};
     evening := {| scheduled := "20:00";
                   taken := if decide (ty = Evening) then Some takenTime else None;
                   pillType := pillName |} |}.

(** [JSON.stringify({ adherenceLog: newLog, ...newStats })]: a property
    [adherenceLog] of [newStats] comes later in the literal and wins. *)
Definition snapshot (h : list DayLog) (newLog : list loc) (newStats : StatsObj) : StoredDoc :=
  {| doc_adherenceLog :=
       readLog h (match adherenceLogProp newStats with
                  | Some stray => stray
                  | None => newLog
                  end);
     doc_currentStreak := currentStreak (counters newStats);
     doc_totalPillsTaken := totalPillsTaken (counters newStats);
     doc_totalPillsScheduled := totalPillsScheduled (counters newStats) |}.

Definition processSuccess (r : Render) (now : Now) (pillName : string)
    (ty : DoseType) (w : World) : RecordOutcome * World :=
  let today := isoDate now in
  let takenTime := localeTime now in
  (* Check if already taken today *)
  let existingEntry := findDay (heap w) today (r_adherenceLog r) in
  if slotTaken (heap w) ty existingEntry then (AlreadyTaken, w)
  else
    let w := emit PlaySuccessSound w in
    let w := setAlert (Some (takenAlert pillName)) w in
    (* Update Data *)
    let newLog := r_adherenceLog r in
    let dayIdx := findIndex (heap w) today newLog in
    let '(h, newLog) :=
      match dayIdx ≫= (λ i, newLog !! i) with
      | Some l => (alter (set_taken ty takenTime) l (heap w), newLog)
      | None => ((heap w ++ [newDay today takenTime pillName ty])%list,
                 (newLog ++ [length (heap w)])%list)
      end in
    let w := setHeap h w in
    let w := setAdherenceLog newLog w in
    (* Update Stats *)
    let newStats :=
      {| counters :=
           {| currentStreak := calculateStreak (readLog h newLog);
              totalPillsTaken := totalPillsTaken (counters (r_stats r)) + 1;
              totalPillsScheduled := totalPillsScheduled (counters (r_stats r)) |};
         adherenceLogProp := adherenceLogProp (r_stats r) |} in
    let w := setStats newStats w in
    let w := setStorage (<[DATA_KEY := Json (snapshot h newLog newStats)]> (localStorage w)) w in
    let w := emit (SetTimeout ClearAlert 5000) w in
    (Accepted, w).

Definition ignoredLabel (label : string) : bool :=
  Str.eqb label "no_pill" || Str.eqb label "multiple_pills"
  || Str.eqb label "Background Join".

Definition looksLikePill (label : string) : bool :=
  Str.includes "pill" (Str.toLowerCase label)
  || Str.includes "med" (Str.toLowerCase label).

Definition handleDetection (r : Render) (now : Now) (label : string)
    (confidence : float) (w : World) : RecordOutcome * World :=
  (* Ignore "empty" or "multiple" for adherence logic *)
  if ignoredLabel label then (Ignored, w)
  else
    (* Visual feedback for any detection *)
    let w := setAlert (Some (identifiedAlert label)) w in
    let v := checkPillValidity now label in
    let '(outcome, w) :=
      match isValid v, vtype v with
      | true, Some ty => processSuccess r now label ty w
      | true, None => (NotScheduled, w)
      | false, _ =>
          (NotScheduled,
           if looksLikePill label then
             setAlert (Some (notScheduledAlert label)) w
           else w)
      end in
    (* Clear general info alert after a few seconds if not replaced *)
    (outcome, emit (SetTimeout ClearAlertIfInfo 3000) w).

Definition drawOverlay (now : Now) (label : string) (confidence : float)
    (w : World) : World :=
  let w := emit ClearCanvas w in
  if negb (Str.eqb label "no_pill") then
    emit (StrokeBox label confidence (isValid (checkPillValidity now label))) w
  else w.

(** One tick of the sampling loop, from the classifier's answer on
    ([None]: the guard on the video element and the model returned). *)
Definition runPrediction (r : Render) (now : Now)
    (predictions : option (list Prediction)) (w : World) : World :=
  match predictions with
  | None => w
  | Some predictions =>
      (* Find the prediction with highest probability *)
      let bestMatch := selectBest predictions in
      let label := className bestMatch in
      let confidence := probability bestMatch in
      let w := drawOverlay now label confidence w in
      let w := setPrediction (label, confidence) w in
      if (CONFIDENCE_THRESHOLD <? confidence)%float then
        (handleDetection r now label confidence w).2
      else w
  end.

(** The timers of [handleDetection] and [processSuccess], when they fire. *)
Definition fireTimer (a : TimerAction) (w : World) : World :=
  match a with
  | ClearAlert => setAlert None w
  | ClearAlertIfInfo =>
      match alert w with
      | Some al => if decide (type al = info) then setAlert None w else w
      | None => w
      end
  end.

End Ledger.

(** ** Reminder sweep: [checkReminders] and [sendNotification] *)

Definition doseName (ty : DoseType) : string :=
  match ty with Morning => "morning" | Evening => "evening" end.

(** The notification collaborator: what the browser is asked to show, as
    [(title, body)], for a given [Notification.permission]. *)
Definition sendNotification (permission : string) (ty : DoseType) : option (string * string) :=
  if Str.eqb permission "granted" then
    Some ("DoseWise Reminder",
          "Reminder: Time to take your " +:+ doseName ty +:+ " medication")
  else None.

Definition checkReminders (r : Render) (now : Now) (w : World) : World :=
  let today := isoDate now in
  let log := findDay (heap w) today (r_adherenceLog r) in
  (* Reminder 15 mins after: 8:15 AM and 8:15 PM *)
  let isMorningReminderTime := ((hours now =? 8) && (minutes now =? 15))%Z in
  let isEveningReminderTime := ((hours now =? 20) && (minutes now =? 15))%Z in
  let w := if isMorningReminderTime && negb (slotTaken (heap w) Morning log)
           then emit (SendNotification Morning) w else w in
  let w := if isEveningReminderTime && negb (slotTaken (heap w) Evening log)
           then emit (SendNotification Evening) w else w in
  w.

(** ** Persistence: [loadLocalData], [generateMockAdherence], [clearData] *)

Definition mockDay (now : Now) (i : nat) : DayLog :=
  {| date := isoDateDaysAgo now (Z.of_nat i);
     morning := {| scheduled := "08:00";
                   taken := if (Z.of_nat i mod 3 =? 0)%Z then None else Some "08:15";
                   pillType := PILL_TYPES_MORNING |};
     evening := {| scheduled := "20:00";
                   taken := if (Z.of_nat i mod 4 =? 0)%Z then None else Some "20:30";
                   pillType := PILL_TYPES_EVENING |} |}.

(** [for (let i = n; i >= 1; i--) history.push(...)] *)
Fixpoint mockLoop (now : Now) (i : nat) : list DayLog :=
  match i with
  | O => []
  | S k => mockDay now (S k) :: mockLoop now k
  end.

Definition generateMockAdherence (now : Now) : list DayLog := mockLoop now 7.

(** New objects enter the store; the array holds their references. *)
Definition allocAll (ds : list DayLog) (h : list DayLog) : list DayLog * list loc :=
  ((h ++ ds)%list, seq (length h) (length ds)).

Definition mockCounters : Stats :=
  {| currentStreak := 5; totalPillsTaken := 47; totalPillsScheduled := 50 |}.

Definition loadMock (now : Now) (w : World) : World :=
  (* DEMO: Pre-populate for presentation *)
  let mock := generateMockAdherence now in
  let '(h, log) := allocAll mock (heap w) in
  let w := setHeap h w in
  let w := setAdherenceLog log w in
  let w := setStats {| counters := mockCounters; adherenceLogProp := Some log |} w in
  setStorage (<[DATA_KEY :=
      Json {| doc_adherenceLog := mock; doc_currentStreak := 5;
              doc_totalPillsTaken := 47; doc_totalPillsScheduled := 50 |}]>
    (localStorage w)) w.

Definition loadLocalData (now : Now) (w : World) : World :=
  match localStorage w !! DATA_KEY with
  | Some (Json parsed) =>
      let '(h, log) := allocAll (doc_adherenceLog parsed) (heap w) in
      let w := setHeap h w in
      let w := setAdherenceLog log w in
      setStats {| counters :=
                    {| currentStreak := doc_currentStreak parsed;
                       totalPillsTaken := doc_totalPillsTaken parsed;
                       totalPillsScheduled := doc_totalPillsScheduled parsed |};
                  adherenceLogProp := None |} w
  | Some (Text s) =>
      (* the empty string is falsy; from other text no document is read
         and the call throws *)
      if Str.eqb s "" then loadMock now w else w
  | None => loadMock now w
  end.

Definition zeroStats : Stats :=
  {| currentStreak := 0; totalPillsTaken := 0; totalPillsScheduled := 0 |}.

(** The state of a session before [initializeApp]: the initial values of
    the [useState] calls, over the blob store the browser kept. *)
Definition initialState (ls : gmap string Blob) : World :=
  {| heap := [];
     adherenceLog := [];
     stats := {| counters := zeroStats; adherenceLogProp := None |};
     alert := None;
     prediction := ("no_pill", 0%float);
     modelUrl := match ls !! MODEL_URL_KEY with
                 | Some (Text url) => url
                 | _ => ""
                 end;
     localStorage := ls;
     effects := [] |}.

(** [clearData], given the answer to [confirm(...)]. *)
Definition clearData (confirmed : bool) (w : World) : World :=
  if confirmed then
    let w := setStorage (delete DATA_KEY (localStorage w)) w in
    emit Reload w
  else w.

(** [window.location.reload()]: a new session over the same blob store,
    up to the end of [loadLocalData]. *)
Definition restart (now : Now) (w : World) : World :=
  loadLocalData now (initialState (localStorage w)).

(** [updateModelUrl] up to the call of [loadModel]. *)
Definition updateModelUrl (newUrl : string) (w : World) : World :=
  let w :=
    {| heap := heap w; adherenceLog := adherenceLog w; stats := stats w;
       alert := alert w; prediction := prediction w; modelUrl := newUrl;
       localStorage := localStorage w; effects := effects w |} in
  setStorage (<[MODEL_URL_KEY := Text newUrl]> (localStorage w)) w.

(** ** A concrete reading of dates, for the examples

    ECMAScript reads a date-only string [YYYY-MM-DD] as midnight UTC of that
    calendar day.  [isoDateValue] computes that time value in milliseconds
    and is [None] on anything else, also where an engine is more lenient; it
    instantiates [Date_getTime] where a statement is evaluated on concrete
    logs with dates of that form. *)

Definition digit (c : ascii) : option Z :=
  let n := nat_of_ascii c in
  if ((48 <=? n) && (n <=? 57))%nat then Some (Z.of_nat (n - 48)) else None.

Definition leapYear (y : Z) : bool :=
  ((y mod 4 =? 0) && (negb (y mod 100 =? 0) || (y mod 400 =? 0)))%Z.

Definition daysInMonth (y m : Z) : Z :=
  if (m =? 2)%Z then (if leapYear y then 29 else 28)
  else if ((m =? 4) || (m =? 6) || (m =? 9) || (m =? 11))%Z then 30 else 31.

(** Days from 1970-01-01 to the given civil date. *)
Definition daysFromCivil (y m d : Z) : Z :=
  let y' := if (m <=? 2)%Z then y - 1 else y in
  let era := y' / 400 in
  let yoe := y' - era * 400 in
  let mp := if (m >? 2)%Z then m - 3 else m + 9 in
  let doy := (153 * mp + 2) / 5 + d - 1 in
  let doe := yoe * 365 + yoe / 4 - yoe / 100 + doy in
  era * 146097 + doe - 719468.

Definition isoDateValue (s : string) : option Z :=
  match s with
  | String y1 (String y2 (String y3 (String y4 (String sep1
      (String m1 (String m2 (String sep2 (String d1 (String d2 EmptyString))))))))) =>
      if Ascii.eqb sep1 "-"%char && Ascii.eqb sep2 "-"%char then
        a ← digit y1; b ← digit y2; c ← digit y3; e ← digit y4;
        f ← digit m1; g ← digit m2; i ← digit d1; j ← digit d2;
        let y := 1000 * a + 100 * b + 10 * c + e in
        let m := 10 * f + g in
        let d := 10 * i + j in
        if ((1 <=? m) && (m <=? 12) && (1 <=? d) && (d <=? daysInMonth y m))%Z
        then Some (daysFromCivil y m d * 86400000)
        else None
      else None
  | _ => None
  end.

(** ** How the handlers are driven

    [startDetection] hands [runPrediction] to [setInterval]: every tick of
    one detection run executes the closure of the render in which the run
    was started.  The two test buttons call [handleDetection] of the render
    that is on screen when they are clicked. *)

Section Drivers.

Variable Date_getTime : string → option Z.

(** The ticks of one detection run, each with its clock reading and the
    classifier's answer. *)
Fixpoint detectionRun (r : Render) (ticks : list (Now * option (list Prediction)))
    (w : World) : World :=
  match ticks with
  | [] => w
  | (now, predictions) :: rest =>
      detectionRun r rest (runPrediction Date_getTime r now predictions w)
  end.

(** [startDetection], then the ticks. *)
Definition startDetection (ticks : list (Now * option (list Prediction)))
    (w : World) : World :=
  detectionRun (render w) ticks w.

(** Above-threshold detections of one run, with the branch each took. *)
Fixpoint detections (r : Render) (ds : list (Now * string * float))
    (w : World) : list RecordOutcome * World :=
  match ds with
  | [] => ([], w)
  | (now, label, confidence) :: rest =>
      let '(o, w) := handleDetection Date_getTime r now label confidence w in
      let '(os, w) := detections r rest w in
      (o :: os, w)
  end.

(** A click on a test button: [handleDetection(PILL_TYPES.X, 0.98)]; the
    literal is the double nearest to 0.98. *)
Definition clickTest (now : Now) (label : string) (w : World) : RecordOutcome * World :=
  handleDetection Date_getTime (render w) now label 0x1.f5c28f5c28f5cp-1%float w.

End Drivers.

(** A double that compares with itself is not a NaN. *)
Definition ordered (x : float) : bool := (x =? x)%float.

(** [label], lower-cased, has [s] as a substring. *)
Definition containsLower (s label : string) : Prop :=
  ∃ pre post, Str.toLowerCase label = pre +:+ s +:+ post.

(** The day object that [log.find(l => l.date === today)] yields. *)
Definition todayLog (h : list DayLog) (today : string) (log : list loc) : option DayLog :=
  findDay h today log ≫= (λ l, h !! l).

(** ** Today's entry, in the words of the specification *)

(** No day of [days] bears the date [today]. *)
Definition noEntry (today : string) (days : list DayLog) : Prop :=
  Forall (λ d, date d ≠ today) days.

(** [day] is the entry of [today] in [days]: the first day that bears the
    date. *)
Definition entryOf (today : string) (days : list DayLog) (day : DayLog) : Prop :=
  ∃ before after,
    days = (before ++ day :: after)%list ∧ date day = today ∧ noEntry today before.

(** [later] keeps every day of [earlier] at its place, with its date and
    with every time that one of its slots held. *)
Definition keepsDays (earlier later : list DayLog) : Prop :=
  ∀ i day, earlier !! i = Some day →
    ∃ day', later !! i = Some day'
      ∧ date day' = date day
      ∧ ∀ ty, truthy (taken (slot ty day)) = true →
              taken (slot ty day') = taken (slot ty day).

(** How many times the confirmation tone was played. *)
Definition soundsPlayed (w : World) : nat :=
  length (List.filter (λ e, match e with PlaySuccessSound => true | _ => false end)
            (effects w)).

(** ** The streak, in the words of the specification *)

(** At least one slot of the day has a timestamp that is not [null]. *)
Definition dayKept (day : DayLog) : Prop :=
  taken (morning day) ≠ None ∨ taken (evening day) ≠ None.

(** [a] is not earlier than [b]; both dates are valid. *)
Definition descends (Date_getTime : string → option Z) (a b : DayLog) : Prop :=
  match Date_getTime (date a), Date_getTime (date b) with
  | Some ta, Some tb => tb ≤ ta
  | _, _ => False
  end.

(** [sorted] is [logs] sorted by date, descending. *)
Definition sortedByDateDesc (Date_getTime : string → option Z)
    (logs sorted : list DayLog) : Prop :=
  sorted ≡ₚ logs ∧ StronglySorted (descends Date_getTime) sorted.

(** [n] is the length of the longest prefix of [sorted] made of kept days. *)
Definition longestKeptPrefix (sorted : list DayLog) (n : nat) : Prop :=
  (n ≤ length sorted)%nat
  ∧ Forall dayKept (take n sorted)
  ∧ ∀ m, (m ≤ length sorted)%nat → Forall dayKept (take m sorted) → (m ≤ n)%nat.

(** The number of leading days with a truthy timestamp. *)
Fixpoint keptRun (sorted : list DayLog) : nat :=
  match sorted with
  | [] => 0
  | day :: rest => if anyTaken day then S (keptRun rest) else 0
  end.

(** ** Well-formed sessions *)

(** Every reference of an array points into the store. *)
Definition refsOk (h : list DayLog) (log : list loc) : Prop :=
  Forall (λ l, (l < length h)%nat) log.

(** [Number.MAX_SAFE_INTEGER] and [Number.isSafeInteger]: the integers that
    a double holds exactly and to which it adds one exactly. *)
Definition MAX_SAFE_INTEGER : Z := 2 ^ 53 - 1.

Definition isSafeInteger (n : Z) : bool :=
  ((- MAX_SAFE_INTEGER <=? n) && (n <=? MAX_SAFE_INTEGER))%Z.

(** Recorded timestamps are time strings, never the empty string. *)
Definition stampOk (t : option string) : Prop := t ≠ Some "".

Definition dayOk (day : DayLog) : Prop :=
  stampOk (taken (morning day)) ∧ stampOk (taken (evening day)).

(** ** Views of the effects *)

(** The timers a handler has set, each with its delay. *)
Definition timers (es : list Effect) : list (TimerAction * Z) :=
  omap (λ e, match e with SetTimeout a ms => Some (a, ms) | _ => None end) es.

(** The notifications the browser shows for the calls of a sweep, under a
    given [Notification.permission]. *)
Definition shownNotifications (permission : string) (es : list Effect) : list (string * string) :=
  omap (λ e, match e with
             | SendNotification ty => sendNotification permission ty
             | _ => None
             end) es.

(** The boxes drawn on the canvas: label, confidence, and whether the green
    colour was used. *)
Definition boxes (es : list Effect) : list (string * float * bool) :=
  omap (λ e, match e with
             | StrokeBox label c isCorrect => Some (label, c, isCorrect)
             | _ => None
             end) es.

(** ** The controls: [initializeApp], [setupWebcam], [loadModel],
    [updateModelUrl], [startDetection], [stopDetection]

    The state cells and the ref that the claims' handlers do not touch are
    kept in a record of their own, next to the [World]. *)

Module Detector.

Inductive CameraState := pending | active | denied | error.


(** The classifier object, by the two files it was loaded from. *)
Record Model := { checkpoint : string; metadata : string }.

Record Controls := {
  isModelLoading : bool;
  isDetecting : bool;
  model : option Model;
  cameraState : CameraState;
  detectionInterval : option nat;   (* detectionInterval.current *)
  intervals : list nat;             (* the intervals the browser is running *)
  nextHandle : nat                  (* the handle the next setInterval returns *)
}.

(** The initial values of the [useState] and [useRef] calls; the browser
    hands out positive handles. *)
Definition initialControls : Controls :=
  {| isModelLoading := true; isDetecting := false; model := None;
     cameraState := pending; detectionInterval := None; intervals := [];
     nextHandle := 1 |}.

Definition setIsModelLoading (b : bool) (c : Controls) : Controls :=
  {| isModelLoading := b; isDetecting := isDetecting c; model := model c;
     cameraState := cameraState c; detectionInterval := detectionInterval c;
     intervals := intervals c; nextHandle := nextHandle c |}.

Definition setIsDetecting (b : bool) (c : Controls) : Controls :=
  {| isModelLoading := isModelLoading c; isDetecting := b; model := model c;
     cameraState := cameraState c; detectionInterval := detectionInterval c;
     intervals := intervals c; nextHandle := nextHandle c |}.

Definition setModel (m : option Model) (c : Controls) : Controls :=
  {| isModelLoading := isModelLoading c; isDetecting := isDetecting c; model := m;
     cameraState := cameraState c; detectionInterval := detectionInterval c;
     intervals := intervals c; nextHandle := nextHandle c |}.


(** [detectionInterval.current = setInterval(runPrediction, DETECTION_FREQUENCY)] *)
Definition setInterval (c : Controls) : Controls :=
  {| isModelLoading := isModelLoading c; isDetecting := isDetecting c; model := model c;
     cameraState := cameraState c; detectionInterval := Some (nextHandle c);
     intervals := nextHandle c :: intervals c; nextHandle := S (nextHandle c) |}.

(** [clearInterval(id)] *)
Definition clearInterval (id : nat) (c : Controls) : Controls :=
  {| isModelLoading := isModelLoading c; isDetecting := isDetecting c; model := model c;
     cameraState := cameraState c; detectionInterval := detectionInterval c;
     intervals := List.filter (λ i, negb (Nat.eqb i id)) (intervals c);
     nextHandle := nextHandle c |}.

(** [s.endsWith(c)] for a string [c] of one character. *)
Fixpoint endsWith (s : string) (c : ascii) : bool :=
  match s with
  | EmptyString => false
  | String a EmptyString => Ascii.eqb a c
  | String _ rest => endsWith rest c
  end.

(** The two files [loadModel] asks for. *)
Definition checkpointOf (url : string) : string :=
  if endsWith url "/"%char then url +:+ "model.json" else url +:+ "/model.json".

Definition metadataOf (url : string) : string :=
  if endsWith url "/"%char then url +:+ "metadata.json" else url +:+ "/metadata.json".






Section WithClassifierHost.

(** Whether [tmImage.load(checkpoint, metadata)] resolves. *)
Variable tmImage_load : string → string → bool.

Definition loadModel (url : string) (s : Controls * World) : Controls * World :=
  let '(c, w) := s in
  let c := setIsModelLoading true c in
  let checkpoint := checkpointOf url in
  let metadata := metadataOf url in
  if tmImage_load checkpoint metadata then
    let c := setModel (Some {| checkpoint := checkpoint; metadata := metadata |}) c in
    let c := setIsModelLoading false c in
    let w := setAlert (Some {| type := success;
                               message := "AI Model Loaded Successfully!" |}) w in
    let w := emit (SetTimeout ClearAlert 3000) w in
    (c, w)
  else
    let w := setAlert (Some {| type := warning;
               message := "Unable to load AI model. Ensure the URL is correct and public." |}) w in
    let c := setIsModelLoading false c in
    (c, w).

(** [updateModelUrl], with the call of [loadModel] at its end. *)
Definition updateModelUrl (newUrl : string) (s : Controls * World) : Controls * World :=
  let '(c, w) := s in
  loadModel newUrl (c, updateModelUrl newUrl w).




End WithClassifierHost.

Definition startDetection (s : Controls * World) : Controls * World :=
  let '(c, w) := s in
  match model c with
  | None =>
      (c, setAlert (Some {| type := warning;
                            message := "Please provide a valid Model URL first" |}) w)
  | Some _ =>
      if negb (isDetecting c) then (setInterval (setIsDetecting true c), w)
      else s
  end.

Definition stopDetection (s : Controls * World) : Controls * World :=
  let '(c, w) := s in
  let c := setIsDetecting false c in
  match detectionInterval c with
  | Some id => if Nat.eqb id 0 then (c, w) else (clearInterval id c, w)
  | None => (c, w)
  end.

(** [useState(!modelUrl)]: the settings panel is open at the start of a
    session that has no model URL. *)
Definition initialShowSettings (w : World) : bool := Str.eqb (modelUrl w) "".

(** What a user does with the controls. *)
Inductive Click :=
| ClickStart
| ClickStop
| EnterUrl (url : string).

Definition click (tmImage_load : string → string → bool) (a : Click)
    (s : Controls * World) : Controls * World :=
  match a with
  | ClickStart => startDetection s
  | ClickStop => stopDetection s
  | EnterUrl url => updateModelUrl tmImage_load url s
  end.

Definition clicks (tmImage_load : string → string → bool) (l : list Click)
    (s : Controls * World) : Controls * World :=
  fold_left (λ s a, click tmImage_load a s) l s.

(** At most one interval runs, and it is the one the ref holds. *)
Definition oneInterval (c : Controls) : Prop :=
  (isDetecting c = true →
     ∃ id, detectionInterval c = Some id ∧ intervals c = [id] ∧ id ≠ 0%nat)
  ∧ (isDetecting c = false → intervals c = [])
  ∧ (∀ id, detectionInterval c = Some id → (0 < id < nextHandle c)%nat)
  ∧ (0 < nextHandle c)%nat.

End Detector.

(** ** The dashboard: today's badges and the calendar of [Dashboard] *)

Module Dashboard.

(** [`✓ Taken ${t}`] or ['⏱ Pending']. *)
Inductive Badge :=
| TakenAt (t : string)
| Pending.

(** The badge of a slot of [todayLog], which is today's entry or one with
    [null] in both slots. *)
Definition badge (h : list DayLog) (today : string) (log : list loc)
    (ty : DoseType) : Badge :=
  let t := match todayLog h today log with
           | Some day => taken (slot ty day)
           | None => None
           end in
  match t with
  | Some s => if truthy t then TakenAt s else Pending
  | None => Pending
  end.

Inductive DayClass := day_full | day_partial | day_none.

Definition takenCount (day : DayLog) : nat :=
  ((if truthy (taken (morning day)) then 1 else 0)
   + (if truthy (taken (evening day)) then 1 else 0))%nat.

Definition statusClass (day : DayLog) : DayClass :=
  if Nat.eqb (takenCount day) 2 then day_full
  else if Nat.eqb (takenCount day) 1 then day_partial
  else day_none.

(** [l.slice(-7)] *)
Definition lastSeven {A : Type} (l : list A) : list A :=
  drop (length l - 7) l.

(** The cells of the calendar: the date (the [key] and [title] of the cell)
    and the class. *)
Definition calendar (h : list DayLog) (log : list loc) : list (string * DayClass) :=
  (λ day, (date day, statusClass day)) <$> lastSeven (readLog h log).

End Dashboard.

(** * Properties *)

(** ** The order on doubles, as the comparisons of the source see it *)

Module FloatOrder.

Ltac cmp_cases :=
  repeat match goal with
  | |- context [ PosDef.Pos.compare_cont Eq ?a ?b ] =>
      change (PosDef.Pos.compare_cont Eq a b) with (Pos.compare a b)
  | H : context [ PosDef.Pos.compare_cont Eq ?a ?b ] |- _ =>
      change (PosDef.Pos.compare_cont Eq a b) with (Pos.compare a b) in H
  | |- context [ Z.compare ?a ?b ] =>
      destruct (Z.compare_spec a b); subst
  | |- context [ Pos.compare ?a ?b ] =>
      destruct (Pos.compare_spec a b); subst
  | H : context [ Z.compare ?a ?b ] |- _ =>
      destruct (Z.compare_spec a b); subst
  | H : context [ Pos.compare ?a ?b ] |- _ =>
      destruct (Pos.compare_spec a b); subst
  end.

Lemma SFcompare_swap (x y : spec_float) :
  SFcompare y x = CompOpp <$> SFcompare x y.
Proof.
  destruct x as [sx|sx| |sx mx ex], y as [sy|sy| |sy my ey];
    try destruct sx; try destruct sy; simpl; try reflexivity;
    cmp_cases; simpl; try reflexivity; try lia.
Qed.

Lemma SFcompare_lt_trans (x y z : spec_float) :
  SFcompare x y = Some Lt → SFcompare y z = Some Lt →
  SFcompare x z = Some Lt.
Proof.
  destruct x as [sx|sx| |sx mx ex], y as [sy|sy| |sy my ey],
           z as [sz|sz| |sz mz ez];
    try destruct sx; try destruct sy; try destruct sz;
    intros Hxy Hyz; simpl in *; try congruence;
    cmp_cases; simpl in *;
    try congruence; try lia.
Qed.

Lemma SFcompare_eq_r (x y z : spec_float) :
  SFcompare y z = Some Eq → SFcompare x y = SFcompare x z.
Proof.
  destruct x as [sx|sx| |sx mx ex], y as [sy|sy| |sy my ey],
           z as [sz|sz| |sz mz ez];
    try destruct sx; try destruct sy; try destruct sz;
    intros Hyz; simpl in *; try congruence;
    cmp_cases; simpl in *;
    try congruence; try lia.
Qed.

(** [x < y] and [y < z] give [x < z]; a NaN is below and above nothing. *)
Lemma ltb_trans (x y z : float) :
  (x <? y)%float = true → (y <? z)%float = true → (x <? z)%float = true.
Proof.
  rewrite !ltb_spec. unfold SFltb. intros Hxy Hyz.
  destruct (SFcompare (Prim2SF x) (Prim2SF y)) as [[]|] eqn:E1; try discriminate.
  destruct (SFcompare (Prim2SF y) (Prim2SF z)) as [[]|] eqn:E2; try discriminate.
  by rewrite (SFcompare_lt_trans _ _ _ E1 E2).
Qed.

Lemma leb_not_gt (x y : float) :
  (x <=? y)%float = true → (y <? x)%float = false.
Proof.
  rewrite leb_spec, ltb_spec. unfold SFleb, SFltb.
  rewrite (SFcompare_swap (Prim2SF x) (Prim2SF y)).
  by destruct (SFcompare (Prim2SF x) (Prim2SF y)) as [[]|].
Qed.

Lemma ltb_leb (x y : float) :
  (x <? y)%float = true → (x <=? y)%float = true.
Proof.
  rewrite leb_spec, ltb_spec. unfold SFleb, SFltb.
  by destruct (SFcompare (Prim2SF x) (Prim2SF y)) as [[]|].
Qed.

Lemma ltb_eqb_r (x y z : float) :
  (y =? z)%float = true → (x <? y)%float = (x <? z)%float.
Proof.
  rewrite FloatAxioms.eqb_spec, !ltb_spec. unfold SFeqb, SFltb. intros H.
  destruct (SFcompare (Prim2SF y) (Prim2SF z)) as [[]|] eqn:E; try discriminate.
  by rewrite (SFcompare_eq_r _ _ _ E).
Qed.

(** Two doubles that are not NaN are ordered one way or the other. *)
Lemma leb_ordered_r (x y : float) : (x <=? y)%float = true → ordered y = true.
Proof.
  unfold ordered. rewrite leb_spec, FloatAxioms.eqb_spec. unfold SFleb, SFeqb.
  destruct (Prim2SF x) as [sx|sx| |sx mx ex], (Prim2SF y) as [sy|sy| |sy my ey];
    try destruct sx; try destruct sy; simpl; try congruence; intros _;
    cmp_cases; simpl; try reflexivity; try lia.
Qed.

Lemma not_ltb_leb (x y : float) :
  ordered x = true → ordered y = true →
  (x <? y)%float = false → (y <=? x)%float = true.
Proof.
  unfold ordered. rewrite !FloatAxioms.eqb_spec, ltb_spec, leb_spec.
  unfold SFeqb, SFltb, SFleb.
  rewrite (SFcompare_swap (Prim2SF x) (Prim2SF y)).
  destruct (Prim2SF x) as [sx|sx| |sx mx ex], (Prim2SF y) as [sy|sy| |sy my ey];
    try destruct sx; try destruct sy; simpl; try congruence;
    intros _ _; cmp_cases; simpl; congruence.
Qed.

Lemma ltb_asym (x y : float) :
  (x <? y)%float = true → (y <? x)%float = false.
Proof. intros H. by apply leb_not_gt, ltb_leb. Qed.

Lemma ltb_irrefl (x : float) : (x <? x)%float = false.
Proof.
  destruct (x <? x)%float eqn:E; [|done].
  by rewrite (ltb_asym _ _ E) in E.
Qed.

Lemma ltb_neq (x y : float) :
  (x <? y)%float = true → (x =? y)%float = false.
Proof.
  rewrite FloatAxioms.eqb_spec, ltb_spec. unfold SFeqb, SFltb.
  by destruct (SFcompare (Prim2SF x) (Prim2SF y)) as [[]|].
Qed.

Lemma leb_antisym (x y : float) :
  (x <=? y)%float = true → (y <=? x)%float = true → (x =? y)%float = true.
Proof.
  rewrite !leb_spec, FloatAxioms.eqb_spec. unfold SFleb, SFeqb.
  rewrite (SFcompare_swap (Prim2SF x) (Prim2SF y)).
  by destruct (SFcompare (Prim2SF x) (Prim2SF y)) as [[]|].
Qed.

End FloatOrder.


(** ** Facts about the string functions *)

Module StrFacts.
Import Str.

Lemma eqb_eq (s t : string) : eqb s t = true ↔ s = t.
Proof. apply String.eqb_eq. Qed.

Lemma eqb_neq (s t : string) : eqb s t = false ↔ s ≠ t.
Proof. apply String.eqb_neq. Qed.

Lemma prefix_split (n h : string) :
  startsWith n h = true ↔ ∃ post, h = n +:+ post.
Proof.
  revert h. induction n as [|c n IH]; intros h; simpl.
  - split; [intros _; by exists h | done].
  - destruct h as [|d h]; simpl.
    + split; [done | by intros [post ?]].
    + rewrite andb_true_iff, Ascii.eqb_eq, IH. split.
      * intros [-> [post ->]]. by exists post.
      * intros [post Heq]. injection Heq as -> ->. eauto.
Qed.

(** [includes] finds exactly the substrings. *)
Lemma includes_spec (n h : string) :
  includes n h = true ↔ ∃ pre post, h = pre +:+ n +:+ post.
Proof.
  induction h as [|c h IH]; simpl.
  - rewrite orb_false_r, prefix_split. split.
    + intros [post ->]. by exists "", post.
    + intros [pre [post Heq]]. destruct pre; simpl in Heq; [by exists post | done].
  - rewrite orb_true_iff, prefix_split, IH. split.
    + intros [[post ->] | [pre [post ->]]].
      * by exists "", post.
      * by exists (String c pre), post.
    + intros [pre [post Heq]]. destruct pre as [|c' pre]; simpl in Heq.
      * left. by exists post.
      * right. exists pre, post. by injection Heq.
Qed.

End StrFacts.

(** ** Schedule policy *)

(** C5.  For every label and every hour, [checkPillValidity] answers valid
    with the morning slot exactly for [pill_morning] at an hour from 7 to 9,
    valid with the evening slot exactly for [pill_evening] at an hour from 19
    to 21, and invalid with no slot for every other label; the answer
    depends on the label and the hour only. *)
Theorem checkPillValidity_windows (now : Now) (label : string) :
  let v := checkPillValidity now label in
  (isValid v = true ∧ vtype v = Some Morning
     ↔ label = "pill_morning" ∧ 7 ≤ hours now ≤ 9)
  ∧ (isValid v = true ∧ vtype v = Some Evening
     ↔ label = "pill_evening" ∧ 19 ≤ hours now ≤ 21)
  ∧ (label ≠ "pill_morning" → label ≠ "pill_evening" →
     v = {| isValid := false; vtype := None |})
  ∧ (∀ now', hours now' = hours now →
     checkPillValidity now' label = v).
Proof.
  cbv zeta. unfold checkPillValidity, PILL_TYPES_MORNING, PILL_TYPES_EVENING.
  destruct (Str.eqb label "pill_morning") eqn:Em.
  { apply StrFacts.eqb_eq in Em. subst label. cbn [isValid vtype].
    rewrite andb_true_iff, !Z.leb_le. split_and!; [intuition (try done; lia) .. | by intros now' ->]. }
  apply StrFacts.eqb_neq in Em.
  destruct (Str.eqb label "pill_evening") eqn:Ee.
  { apply StrFacts.eqb_eq in Ee. subst label. cbn [isValid vtype].
    rewrite andb_true_iff, !Z.leb_le. split_and!; [intuition (try done; lia) .. | by intros now' ->]. }
  apply StrFacts.eqb_neq in Ee. cbn [isValid vtype].
  split_and!; [intuition done .. | done].
Qed.

(** ** Detection gate *)

Section Gate.
Import FloatOrder.

Local Abbreviation prob := probability.

Lemma selectFrom_cons (b x : Prediction) (l : list Prediction) :
  selectFrom b (x :: l) = selectFrom (better b x) l.
Proof. reflexivity. Qed.

(** The loop either keeps its starting value, which nothing in the list
    exceeds, or ends on an element of the list that exceeds the starting
    value, that nothing in the list exceeds, and that no earlier element
    equals or exceeds. *)
Lemma selectFrom_cases (b : Prediction) (l : list Prediction) :
  (selectFrom b l = b ∧ Forall (λ q, (prob b <? prob q)%float = false) l)
  ∨ (∃ i p, l !! i = Some p ∧ selectFrom b l = p
       ∧ (prob b <? prob p)%float = true
       ∧ Forall (λ q, (prob p <? prob q)%float = false) l
       ∧ (∀ j q, (j < i)%nat → l !! j = Some q →
            (prob p <? prob q)%float = false ∧ (prob q =? prob p)%float = false)).
Proof.
  revert b. induction l as [|x l IH]; intros b.
  { left. by split. }
  rewrite selectFrom_cons. unfold better.
  destruct (prob b <? prob x)%float eqn:Hbx.
  - right. destruct (IH x) as [[Hsel Hall] | (i & p & Hi & Hsel & Hxp & Hall & Hearly)].
    + exists 0%nat, x. split_and!; try done.
      * constructor; [apply ltb_irrefl | done].
      * intros j q Hj. lia.
    + exists (S i), p. split_and!; try done.
      * by apply ltb_trans with (prob x).
      * constructor; [by apply ltb_asym | done].
      * intros [|j] q Hj Hq; simpl in Hq.
        -- injection Hq as <-. split; [by apply ltb_asym | by apply ltb_neq].
        -- apply (Hearly j q); [lia | done].
  - destruct (IH b) as [[Hsel Hall] | (i & p & Hi & Hsel & Hbp & Hall & Hearly)].
    + left. split; [done | by constructor].
    + right. exists (S i), p.
      assert (Hpx : (prob p <? prob x)%float = false).
      { destruct (prob p <? prob x)%float eqn:E; [|done].
        by rewrite (ltb_trans _ _ _ Hbp E) in Hbx. }
      split_and!; try done.
      * by constructor.
      * intros [|j] q Hj Hq; simpl in Hq.
        -- injection Hq as <-. split; [done|].
           destruct (prob x =? prob p)%float eqn:E; [|done].
           by rewrite (ltb_eqb_r _ _ _ E), Hbp in Hbx.
        -- apply (Hearly j q); [lia | done].
Qed.

(** When no candidate has a positive probability the loop never assigns,
    and the tick goes on with the placeholder it started from. *)
Lemma selectBest_placeholder (predictions : list Prediction) :
  Forall (λ q, (0 <? prob q)%float = false) predictions →
  selectBest predictions = noMatch.
Proof.
  intros Hall. unfold selectBest.
  destruct (selectFrom_cases noMatch predictions)
    as [[Hsel _] | (i & p & Hi & _ & Hlt & _)]; [done|].
  apply list_elem_of_lookup_2 in Hi.
  rewrite Forall_forall in Hall. apply Hall in Hi.
  simpl in Hlt. congruence.
Qed.

End Gate.

(** Probabilities, which lie between 0 and 1, are never NaN. *)
Lemma probabilities_ordered (predictions : list Prediction) :
  Forall (λ q, (0 <=? probability q)%float = true
               ∧ (probability q <=? 1)%float = true) predictions →
  Forall (λ q, ordered (probability q) = true) predictions.
Proof.
  intros H. eapply Forall_impl; [exact H|].
  intros q [H0 _]. by apply FloatOrder.leb_ordered_r in H0.
Qed.

(** C7, as the source has it.  For every list of candidates none of whose
    probabilities is a NaN and at least one of which is positive, the
    selection of [runPrediction] is one of the candidates, no candidate has
    a higher probability, and every candidate before it in the list has a
    strictly lower one: among the candidates of maximal probability it is
    the first. *)
Theorem selectBest_highest_first (predictions : list Prediction) :
  Forall (λ q, ordered (probability q) = true) predictions →
  Exists (λ q, (0 <? probability q)%float = true) predictions →
  ∃ i, predictions !! i = Some (selectBest predictions)
     ∧ Forall (λ q, (probability q <=? probability (selectBest predictions))%float = true)
              predictions
     ∧ (∀ j q, (j < i)%nat → predictions !! j = Some q →
          (probability q <? probability (selectBest predictions))%float = true).
Proof.
  intros Hord Hpos. unfold selectBest.
  destruct (selectFrom_cases noMatch predictions)
    as [[_ Hall] | (i & p & Hi & Hsel & _ & Hall & Hearly)].
  { exfalso. rewrite Exists_exists in Hpos. destruct Hpos as (q & Hq & Hlt).
    rewrite Forall_forall in Hall. apply Hall in Hq. simpl in Hq. congruence. }
  rewrite Hsel. exists i.
  assert (Hp : ordered (probability p) = true).
  { rewrite Forall_forall in Hord. apply Hord.
    by apply list_elem_of_lookup_2 in Hi. }
  split_and!; [done | |].
  - rewrite Forall_forall in Hord, Hall |- *. intros q Hq.
    apply FloatOrder.not_ltb_leb; auto.
  - intros j q Hj Hq. destruct (Hearly j q Hj Hq) as [Hle Hne].
    assert (Hoq : ordered (probability q) = true).
    { rewrite Forall_forall in Hord. apply Hord.
      by apply list_elem_of_lookup_2 in Hq. }
    destruct (probability q <? probability p)%float eqn:E; [done|].
    exfalso.
    pose proof (FloatOrder.not_ltb_leb _ _ Hoq Hp E) as H1.
    pose proof (FloatOrder.not_ltb_leb _ _ Hp Hoq Hle) as H2.
    rewrite (FloatOrder.leb_antisym _ _ H2 H1) in Hne. done.
Qed.

(** The claim of C7 as the specification words it fails on a list whose
    probabilities are all zero: the loop compares with [>] against a
    placeholder of probability 0, so the placeholder [no_pill] is what the
    tick goes on with, and it is not among the candidates. *)
Lemma selectBest_not_a_candidate :
  let predictions := [ {| className := "pill_morning"; probability := 0%float |} ] in
  predictions ≠ [] ∧ ¬ (selectBest predictions ∈ predictions).
Proof.
  cbv zeta. split; [done|].
  intros H. apply list_elem_of_singleton in H. vm_compute in H. discriminate.
Qed.

Lemma selectBest_highest_first_witness :
  let predictions :=
    [ {| className := "no_pill"; probability := 0.125%float |};
      {| className := "pill_morning"; probability := 0.375%float |};
      {| className := "pill_evening"; probability := 0.375%float |};
      {| className := "multiple_pills"; probability := 0.125%float |} ] in
  className (selectBest predictions) = "pill_morning"
  ∧ ∃ i, predictions !! i = Some (selectBest predictions)
     ∧ Forall (λ q, (probability q <=? probability (selectBest predictions))%float = true)
              predictions
     ∧ (∀ j q, (j < i)%nat → predictions !! j = Some q →
          (probability q <? probability (selectBest predictions))%float = true).
Proof.
  cbv zeta. split; [reflexivity|].
  apply selectBest_highest_first.
  - repeat constructor.
  - apply Exists_cons_hd. reflexivity.
Defined.

(** ** What a tick leaves alone *)

Lemma drawOverlay_frame (now : Now) (label : string) (c : float) (w : World) :
  heap (drawOverlay now label c w) = heap w
  ∧ adherenceLog (drawOverlay now label c w) = adherenceLog w
  ∧ stats (drawOverlay now label c w) = stats w
  ∧ localStorage (drawOverlay now label c w) = localStorage w
  ∧ alert (drawOverlay now label c w) = alert w.
Proof.
  unfold drawOverlay. by destruct (negb (Str.eqb label "no_pill")).
Qed.

(** C2.  A tick whose winning candidate has a probability of at most 0.75
    changes neither a day object nor the log array nor the statistics nor
    the blob store; it raises no alert either. *)
Theorem below_threshold_ledger_untouched
    (Date_getTime : string → option Z) (r : Render) (now : Now)
    (predictions : list Prediction) (w : World) :
  (probability (selectBest predictions) <=? 0.75)%float = true →
  let w' := runPrediction Date_getTime r now (Some predictions) w in
  heap w' = heap w
  ∧ adherenceLog w' = adherenceLog w
  ∧ stats w' = stats w
  ∧ localStorage w' = localStorage w
  ∧ alert w' = alert w.
Proof.
  intros Hle. cbv zeta. unfold runPrediction, CONFIDENCE_THRESHOLD.
  rewrite (FloatOrder.leb_not_gt _ _ Hle).
  destruct (drawOverlay_frame now (className (selectBest predictions))
              (probability (selectBest predictions)) w) as (? & ? & ? & ? & ?).
  by split_and!.
Qed.

Lemma below_threshold_ledger_untouched_witness :
  let now := {| isoDate := "2024-03-10"; hours := 8; minutes := 0;
                localeTime := "08:00 AM"; isoDateDaysAgo := λ _, "2024-03-09" |} in
  let predictions :=
    [ {| className := "pill_morning"; probability := 0.75%float |};
      {| className := "no_pill"; probability := 0.25%float |} ] in
  let w := initialState ∅ in
  let w' := runPrediction isoDateValue (render w) now (Some predictions) w in
  heap w' = heap w
  ∧ adherenceLog w' = adherenceLog w
  ∧ stats w' = stats w
  ∧ localStorage w' = localStorage w
  ∧ alert w' = alert w.
Proof.
  cbv zeta. apply below_threshold_ledger_untouched. reflexivity.
Defined.

(** ** Detections outside their window *)

Lemma looksLikePill_spec (label : string) :
  looksLikePill label = true ↔ containsLower "pill" label ∨ containsLower "med" label.
Proof.
  unfold looksLikePill, containsLower.
  by rewrite orb_true_iff, !StrFacts.includes_spec.
Qed.

(** A detection that is not ignored and whose schedule check fails: the
    branch taken is the one without [processSuccess]. *)
Lemma handleDetection_invalid
    (Date_getTime : string → option Z) (r : Render) (now : Now)
    (label : string) (c : float) (w : World) :
  ignoredLabel label = false →
  isValid (checkPillValidity now label) = false →
  ∃ a, handleDetection Date_getTime r now label c w
       = (NotScheduled, emit (SetTimeout ClearAlertIfInfo 3000) (setAlert (Some a) w))
     ∧ type a = (if looksLikePill label then warning else info).
Proof.
  intros Hign Hinv. unfold handleDetection. rewrite Hign.
  destruct (checkPillValidity now label) as [v ty]. simpl in Hinv. subst v.
  cbn [isValid vtype]. destruct (looksLikePill label); eauto.
Qed.

(** C9.  When the winning candidate is above the threshold, is not one of
    the ignored labels (every slot label qualifies) and fails the schedule
    check, the tick changes neither a day object nor the log array nor the
    statistics nor the blob store, and the alert it leaves is a warning if
    the lower-cased label contains [pill] or [med], and the information
    alert otherwise. *)
Theorem not_scheduled_warning_iff_pill_like
    (Date_getTime : string → option Z) (r : Render) (now : Now)
    (predictions : list Prediction) (w : World) :
  let best := selectBest predictions in
  (0.75 <? probability best)%float = true →
  ignoredLabel (className best) = false →
  isValid (checkPillValidity now (className best)) = false →
  let w' := runPrediction Date_getTime r now (Some predictions) w in
  heap w' = heap w
  ∧ adherenceLog w' = adherenceLog w
  ∧ stats w' = stats w
  ∧ localStorage w' = localStorage w
  ∧ ∃ a, alert w' = Some a
      ∧ (type a = warning ↔
           containsLower "pill" (className best) ∨ containsLower "med" (className best))
      ∧ (type a = info ↔
           ¬ (containsLower "pill" (className best) ∨ containsLower "med" (className best))).
Proof.
  cbv zeta. intros Habove Hign Hinv.
  unfold runPrediction, CONFIDENCE_THRESHOLD. rewrite Habove.
  set (best := selectBest predictions) in *.
  set (w1 := setPrediction _ _).
  destruct (handleDetection_invalid Date_getTime r now (className best)
              (probability best) w1 Hign Hinv) as (a & -> & Ha).
  destruct (drawOverlay_frame now (className best) (probability best) w)
    as (? & ? & ? & ? & ?).
  cbn. split_and!; try done.
  exists a. split; [done|]. rewrite Ha, <- looksLikePill_spec.
  destruct (looksLikePill (className best)); split; split; (done || intros []; done).
Qed.

Lemma not_scheduled_warning_iff_pill_like_witness :
  let now := {| isoDate := "2024-03-10"; hours := 14; minutes := 0;
                localeTime := "02:00 PM"; isoDateDaysAgo := λ _, "2024-03-09" |} in
  let predictions :=
    [ {| className := "pill_evening"; probability := 0.875%float |};
      {| className := "no_pill"; probability := 0.125%float |} ] in
  let w := initialState ∅ in
  let w' := runPrediction isoDateValue (render w) now (Some predictions) w in
  (type <$> alert w') = Some warning
  ∧ heap w' = heap w
  ∧ adherenceLog w' = adherenceLog w
  ∧ stats w' = stats w
  ∧ localStorage w' = localStorage w
  ∧ ∃ a, alert w' = Some a
      ∧ (type a = warning ↔
           containsLower "pill" "pill_evening" ∨ containsLower "med" "pill_evening")
      ∧ (type a = info ↔
           ¬ (containsLower "pill" "pill_evening" ∨ containsLower "med" "pill_evening")).
Proof.
  cbv zeta. split; [reflexivity|].
  apply (not_scheduled_warning_iff_pill_like isoDateValue); reflexivity.
Defined.

(** ** The ledger: finding and updating today's entry *)

Section LedgerFacts.

Implicit Types (h : list DayLog) (log : list loc) (today : string).

Lemma findIndex_findDay h today log :
  findIndex h today log ≫= (λ i, log !! i) = findDay h today log.
Proof.
  induction log as [|l log IH]; [done|]. simpl.
  destruct (h !! l) as [day|]; [destruct (Str.eqb (date day) today); [done|]|];
    rewrite <- IH; by destruct (findIndex h today log).
Qed.

Lemma findDay_Some h today log l :
  findDay h today log = Some l →
  l ∈ log ∧ ∃ day, h !! l = Some day ∧ date day = today.
Proof.
  induction log as [|l' log IH]; [done|]. simpl.
  destruct (h !! l') as [day|] eqn:Hl.
  - destruct (Str.eqb (date day) today) eqn:Hd.
    + intros [= <-]. apply StrFacts.eqb_eq in Hd. split; [left | eauto].
    + intros H. destruct (IH H) as [? ?]. split; [by right | done].
  - intros H. destruct (IH H) as [? ?]. split; [by right | done].
Qed.

Lemma date_set_taken ty t day : date (set_taken ty t day) = date day.
Proof. by destruct ty. Qed.

Lemma taken_set_taken ty t day : taken (slot ty (set_taken ty t day)) = Some t.
Proof. by destruct ty. Qed.

(** Assigning a [taken] field moves no entry: dates are untouched. *)
Lemma findDay_alter h today log ty t l' :
  findDay (alter (set_taken ty t) l' h) today log = findDay h today log.
Proof.
  induction log as [|l log IH]; [done|]. simpl. rewrite IH.
  destruct (decide (l' = l)) as [->|Hne].
  - rewrite list_lookup_alter_eq. destruct (h !! l) as [day|]; [|done].
    simpl. by rewrite date_set_taken.
  - by rewrite list_lookup_alter_ne.
Qed.

(** Pushing a new day object: an entry found before is still the one
    found, and otherwise the new object is found if it bears the date. *)
Lemma findDay_push h today log day :
  refsOk h log →
  findDay (h ++ [day]) today (log ++ [length h]) =
    match findDay h today log with
    | Some l => Some l
    | None => if Str.eqb (date day) today then Some (length h) else None
    end.
Proof.
  unfold refsOk. induction log as [|l log IH]; intros Hok; simpl.
  - rewrite lookup_app_r, Nat.sub_diag by lia. done.
  - apply Forall_cons in Hok as [Hl Hok].
    rewrite lookup_app_l by done.
    destruct (lookup_lt_is_Some_2 h l Hl) as [d ->].
    destruct (Str.eqb (date d) today); [done | by apply IH].
Qed.

Lemma dayKeeps_refsOk_alter h log (f : DayLog → DayLog) l :
  refsOk h log → refsOk (alter f l h) log.
Proof. unfold refsOk. by rewrite length_alter. Qed.

Lemma refsOk_push h log day :
  refsOk h log → refsOk (h ++ [day]) (log ++ [length h]).
Proof.
  unfold refsOk. intros Hok. rewrite length_app. simpl.
  apply Forall_app. split.
  - eapply Forall_impl; [done|]. simpl. lia.
  - constructor; [lia | done].
Qed.

End LedgerFacts.

(** ** Today's entry: what [find] yields *)

Lemma readLog_cons (h : list DayLog) (l : loc) (log : list loc) :
  readLog h (l :: log)
  = match h !! l with
    | Some day => day :: readLog h log
    | None => readLog h log
    end.
Proof. done. Qed.

Lemma entryOf_here (today : string) (day d : DayLog) (days : list DayLog) :
  date d = today → entryOf today (d :: days) day ↔ day = d.
Proof.
  intros Hd. split.
  - intros ([|b before] & after & Heq & _ & Hno); simplify_eq/=; [done|].
    by apply Forall_cons in Hno as [? _].
  - intros ->. exists [], days. split_and!; [done | done | constructor].
Qed.

Lemma entryOf_later (today : string) (day d : DayLog) (days : list DayLog) :
  date d ≠ today → entryOf today (d :: days) day ↔ entryOf today days day.
Proof.
  intros Hd. split.
  - intros ([|b before] & after & Heq & Hdate & Hno); simplify_eq/=; try done.
    apply Forall_cons in Hno as [_ Hno]. by exists before, after.
  - intros (before & after & -> & Hdate & Hno).
    exists (d :: before), after. split_and!; [done | done | by constructor].
Qed.

(** [log.find(l => l.date === today)] yields the entry of today. *)
Lemma todayLog_entryOf (h : list DayLog) (today : string) (log : list loc)
    (day : DayLog) :
  todayLog h today log = Some day ↔ entryOf today (readLog h log) day.
Proof.
  unfold todayLog. induction log as [|l log IH].
  - split; [done|]. by intros ([|??] & ? & ? & _).
  - rewrite readLog_cons. simpl. destruct (h !! l) as [d|] eqn:Hl; [|done].
    destruct (Str.eqb (date d) today) eqn:Hd.
    + apply StrFacts.eqb_eq in Hd. rewrite entryOf_here by done. simpl.
      rewrite Hl. split; congruence.
    + apply StrFacts.eqb_neq in Hd. by rewrite entryOf_later.
Qed.

(** It yields [undefined] exactly when no day bears the date. *)
Lemma todayLog_noEntry (h : list DayLog) (today : string) (log : list loc) :
  todayLog h today log = None ↔ noEntry today (readLog h log).
Proof.
  unfold todayLog, noEntry. induction log as [|l log IH].
  - split; [constructor | done].
  - rewrite readLog_cons. simpl. destruct (h !! l) as [d|] eqn:Hl; [|done].
    rewrite Forall_cons.
    destruct (Str.eqb (date d) today) eqn:Hd.
    + apply StrFacts.eqb_eq in Hd. simpl. rewrite Hl. split; [done | tauto].
    + apply StrFacts.eqb_neq in Hd. rewrite IH. tauto.
Qed.

(** ** Detections of a dose that is already recorded *)

Lemma slotTaken_todayLog (h : list DayLog) (ty : DoseType) (today : string)
    (log : list loc) (day : DayLog) (t : string) :
  todayLog h today log = Some day →
  taken (slot ty day) = Some t → t ≠ "" →
  slotTaken h ty (findDay h today log) = true.
Proof.
  unfold todayLog, slotTaken. intros Hday Ht Hne.
  destruct (findDay h today log) as [l|]; [|done]. simpl in Hday.
  rewrite Hday, Ht. simpl. apply negb_true_iff. by apply StrFacts.eqb_neq.
Qed.

Lemma processSuccess_already
    (Date_getTime : string → option Z) (r : Render) (now : Now)
    (pillName : string) (ty : DoseType) (w : World) :
  slotTaken (heap w) ty (findDay (heap w) (isoDate now) (r_adherenceLog r)) = true →
  processSuccess Date_getTime r now pillName ty w = (AlreadyTaken, w).
Proof. intros H. unfold processSuccess. by rewrite H. Qed.

(** The labels that carry a slot. *)
Lemma vtype_Some (now : Now) (label : string) (ty : DoseType) :
  vtype (checkPillValidity now label) = Some ty →
  (label = "pill_morning" ∧ ty = Morning) ∨ (label = "pill_evening" ∧ ty = Evening).
Proof.
  unfold checkPillValidity, PILL_TYPES_MORNING, PILL_TYPES_EVENING.
  destruct (Str.eqb label "pill_morning") eqn:Em.
  { apply StrFacts.eqb_eq in Em. intros [= <-]. by left. }
  destruct (Str.eqb label "pill_evening") eqn:Ee; [|done].
  apply StrFacts.eqb_eq in Ee. intros [= <-]. by right.
Qed.

(** C6, as the source has it.  [handleDetection] consults the schedule
    before [processSuccess] looks at today's entry, and the entry it looks
    at is that of the log its closure holds: the log of the render the
    handler belongs to, which is the log on screen for a click on a test
    button and the log at the click on Start for the sampling loop.  For a
    slot label whose slot of today, in that log, already holds a timestamp,
    the detection changes nothing of the record; inside the acceptance
    window it ends as already taken, plays no sound and leaves the
    information alert; outside the window it ends as not scheduled and the
    warning replaces the information alert. *)
Theorem already_taken_only_inside_window
    (Date_getTime : string → option Z) (r : Render) (now : Now)
    (label : string) (ty : DoseType) (c : float) (w : World)
    (day : DayLog) (t : string) :
  vtype (checkPillValidity now label) = Some ty →
  entryOf (isoDate now) (readLog (heap w) (r_adherenceLog r)) day →
  taken (slot ty day) = Some t → t ≠ "" →
  let res := handleDetection Date_getTime r now label c w in
  heap res.2 = heap w
  ∧ adherenceLog res.2 = adherenceLog w
  ∧ stats res.2 = stats w
  ∧ localStorage res.2 = localStorage w
  ∧ effects res.2 = (effects w ++ [SetTimeout ClearAlertIfInfo 3000])%list
  ∧ (isValid (checkPillValidity now label) = true →
       res.1 = AlreadyTaken ∧ (type <$> alert res.2) = Some info)
  ∧ (isValid (checkPillValidity now label) = false →
       res.1 = NotScheduled ∧ (type <$> alert res.2) = Some warning).
Proof.
  intros Hty Hday Ht Hne. cbv zeta. apply todayLog_entryOf in Hday.
  assert (Hign : ignoredLabel label = false).
  { destruct (vtype_Some _ _ _ Hty) as [[-> _] | [-> _]]; reflexivity. }
  assert (Hpill : looksLikePill label = true).
  { destruct (vtype_Some _ _ _ Hty) as [[-> _] | [-> _]]; reflexivity. }
  destruct (isValid (checkPillValidity now label)) eqn:Hv.
  - unfold handleDetection. rewrite Hign, Hv, Hty.
    rewrite processSuccess_already
      by (by apply slotTaken_todayLog with day t).
    cbn. by split_and!.
  - destruct (handleDetection_invalid Date_getTime r now label c w Hign Hv)
      as (a & -> & Ha).
    rewrite Hpill in Ha. cbn. rewrite Ha. by split_and!.
Qed.

(** The claim of C6 as the specification words it fails outside the window:
    the morning dose of today is recorded, [pill_morning] is seen at noon,
    and the detection ends as not scheduled under a warning. *)
Lemma already_taken_at_noon_warns :
  let now := {| isoDate := "2024-03-10"; hours := 12; minutes := 0;
                localeTime := "12:00 PM"; isoDateDaysAgo := λ _, "2024-03-09" |} in
  let today :=
    {| date := "2024-03-10";
       morning := {| scheduled := "08:00"; taken := Some "08:05 AM";
                     pillType := "pill_morning" |};
       evening := {| scheduled := "20:00"; taken := None;
                     pillType := "pill_morning" |} |} in
  let w := setAdherenceLog [0%nat] (setHeap [today] (initialState ∅)) in
  let res := handleDetection isoDateValue (render w) now "pill_morning" 0.875%float w in
  taken (slot Morning today) = Some "08:05 AM"
  ∧ res.1 ≠ AlreadyTaken
  ∧ (type <$> alert res.2) = Some warning.
Proof. cbv zeta. split_and!; [reflexivity | by vm_compute | reflexivity]. Qed.

Lemma already_taken_only_inside_window_witness :
  let now := {| isoDate := "2024-03-10"; hours := 8; minutes := 30;
                localeTime := "08:30 AM"; isoDateDaysAgo := λ _, "2024-03-09" |} in
  let today :=
    {| date := "2024-03-10";
       morning := {| scheduled := "08:00"; taken := Some "08:05 AM";
                     pillType := "pill_morning" |};
       evening := {| scheduled := "20:00"; taken := None;
                     pillType := "pill_morning" |} |} in
  let w := setAdherenceLog [0%nat] (setHeap [today] (initialState ∅)) in
  let res := handleDetection isoDateValue (render w) now "pill_morning" 0.875%float w in
  heap res.2 = heap w
  ∧ adherenceLog res.2 = adherenceLog w
  ∧ stats res.2 = stats w
  ∧ localStorage res.2 = localStorage w
  ∧ effects res.2 = (effects w ++ [SetTimeout ClearAlertIfInfo 3000])%list
  ∧ (isValid (checkPillValidity now "pill_morning") = true →
       res.1 = AlreadyTaken ∧ (type <$> alert res.2) = Some info)
  ∧ (isValid (checkPillValidity now "pill_morning") = false →
       res.1 = NotScheduled ∧ (type <$> alert res.2) = Some warning).
Proof.
  cbv zeta.
  eapply (already_taken_only_inside_window isoDateValue)
    with (ty := Morning) (t := "08:05 AM");
    [reflexivity
    | exists [], []; split_and!; [reflexivity | reflexivity | constructor]
    | reflexivity
    | done].
Defined.

(** ** Recording a dose *)

Lemma taken_newDay (today takenTime pillName : string) (ty : DoseType) :
  taken (slot ty (newDay today takenTime pillName ty)) = Some takenTime.
Proof. by destruct ty. Qed.

(** The branch of [processSuccess] past the check on today's entry: the
    slot of today, in the log that becomes the state, holds the time of
    this call, and the counter is the counter of the render plus one. *)
Lemma processSuccess_accepted
    (Date_getTime : string → option Z) (r : Render) (now : Now)
    (pillName : string) (ty : DoseType) (w : World) :
  refsOk (heap w) (r_adherenceLog r) →
  slotTaken (heap w) ty (findDay (heap w) (isoDate now) (r_adherenceLog r)) = false →
  let res := processSuccess Date_getTime r now pillName ty w in
  res.1 = Accepted
  ∧ refsOk (heap res.2) (adherenceLog res.2)
  ∧ (∃ day, todayLog (heap res.2) (isoDate now) (adherenceLog res.2) = Some day
        ∧ taken (slot ty day) = Some (localeTime now))
  ∧ totalPillsTaken (counters (stats res.2))
      = totalPillsTaken (counters (r_stats r)) + 1
  ∧ currentStreak (counters (stats res.2))
      = calculateStreak Date_getTime (readLog (heap res.2) (adherenceLog res.2))
  ∧ effects res.2 = (effects w ++ [PlaySuccessSound; SetTimeout ClearAlert 5000])%list
  ∧ (type <$> alert res.2) = Some success.
Proof.
  intros Hok Hfree. cbv zeta. unfold processSuccess. rewrite Hfree.
  cbn [heap emit setAlert]. rewrite findIndex_findDay.
  destruct (findDay (heap w) (isoDate now) (r_adherenceLog r)) as [l|] eqn:Hfind;
    cbn -[calculateStreak].
  - destruct (findDay_Some _ _ _ _ Hfind) as [_ (day & Hday & _)].
    split_and!; try done.
    + by apply dayKeeps_refsOk_alter.
    + exists (set_taken ty (localeTime now) day). unfold todayLog.
      rewrite findDay_alter, Hfind. simpl.
      rewrite list_lookup_alter_eq, Hday. split; [done | apply taken_set_taken].
    + by rewrite <- app_assoc.
  - split_and!; try done.
    + by apply refsOk_push.
    + exists (newDay (isoDate now) (localeTime now) pillName ty). unfold todayLog.
      rewrite findDay_push, Hfind by done. simpl.
      assert (Str.eqb (isoDate now) (isoDate now) = true) as -> by by apply StrFacts.eqb_eq.
      simpl. rewrite lookup_app_r, Nat.sub_diag by lia.
      split; [done | apply taken_newDay].
    + by rewrite <- app_assoc.
Qed.

(** A detection that passes the schedule check goes through
    [processSuccess], under the information alert and before the timer. *)
Lemma handleDetection_valid
    (Date_getTime : string → option Z) (r : Render) (now : Now)
    (label : string) (ty : DoseType) (c : float) (w : World) :
  ignoredLabel label = false →
  checkPillValidity now label = {| isValid := true; vtype := Some ty |} →
  handleDetection Date_getTime r now label c w =
    ((processSuccess Date_getTime r now label ty
        (setAlert (Some (identifiedAlert label)) w)).1,
     emit (SetTimeout ClearAlertIfInfo 3000)
       (processSuccess Date_getTime r now label ty
          (setAlert (Some (identifiedAlert label)) w)).2).
Proof.
  intros Hign Hv. unfold handleDetection. rewrite Hign, Hv. cbn [isValid vtype].
  by destruct (processSuccess _ _ _ _ _ _).
Qed.

(** X2.  The path of the two test buttons, where each call runs in the render
    of the state the previous call left: the first call records the dose,
    the second finds it recorded and changes nothing of the record.  The
    counter, a safe integer before, went up by one. *)
Lemma record_twice_with_fresh_render
    (Date_getTime : string → option Z) (now1 now2 : Now)
    (label : string) (ty : DoseType) (w : World) :
  checkPillValidity now1 label = {| isValid := true; vtype := Some ty |} →
  checkPillValidity now2 label = {| isValid := true; vtype := Some ty |} →
  isoDate now2 = isoDate now1 →
  localeTime now1 ≠ "" →
  refsOk (heap w) (adherenceLog w) →
  slotTaken (heap w) ty (findDay (heap w) (isoDate now1) (adherenceLog w)) = false →
  isSafeInteger (totalPillsTaken (counters (stats w))) = true →
  let res1 := clickTest Date_getTime now1 label w in
  let res2 := clickTest Date_getTime now2 label res1.2 in
  res1.1 = Accepted
  ∧ res2.1 = AlreadyTaken
  ∧ heap res2.2 = heap res1.2
  ∧ adherenceLog res2.2 = adherenceLog res1.2
  ∧ stats res2.2 = stats res1.2
  ∧ localStorage res2.2 = localStorage res1.2
  ∧ totalPillsTaken (counters (stats res2.2))
      = totalPillsTaken (counters (stats w)) + 1
  ∧ ∃ day, todayLog (heap res2.2) (isoDate now1) (adherenceLog res2.2) = Some day
        ∧ taken (slot ty day) = Some (localeTime now1).
Proof.
  intros Hv1 Hv2 Hdate Htime Hok Hfree _. cbv zeta.
  assert (Hign : ignoredLabel label = false).
  { assert (Hty : vtype (checkPillValidity now1 label) = Some ty) by by rewrite Hv1.
    destruct (vtype_Some _ _ _ Hty) as [[-> _] | [-> _]]; reflexivity. }
  unfold clickTest.
  rewrite (handleDetection_valid Date_getTime (render w) now1 label ty
              0x1.f5c28f5c28f5cp-1%float w Hign Hv1).
  set (w1 := setAlert _ w).
  destruct (processSuccess_accepted Date_getTime (render w) now1 label ty w1)
    as (Ho & Hok1 & (day & Hday & Ht) & Htot & _ & _ & _); [done | done |].
  destruct (processSuccess Date_getTime (render w) now1 label ty w1) as [o1 w2].
  simpl in Ho, Hok1, Hday, Htot. subst o1. cbn [fst snd].
  set (w3 := emit _ w2).
  rewrite (handleDetection_valid Date_getTime (render w3) now2 label ty
              0x1.f5c28f5c28f5cp-1%float w3 Hign Hv2).
  rewrite processSuccess_already.
  - cbn. split_and!; try done. eauto.
  - cbn. rewrite Hdate. by apply slotTaken_todayLog with day (localeTime now1).
Qed.

(** ** Two detections in one detection run *)

Lemma findDay_heap_grow (h : list DayLog) (today : string) (log : list loc)
    (day : DayLog) :
  refsOk h log → findDay (h ++ [day]) today log = findDay h today log.
Proof.
  unfold refsOk. induction log as [|l log IH]; intros Hok; [done|]. simpl.
  apply Forall_cons in Hok as [Hl Hok].
  rewrite lookup_app_l by done. by rewrite IH.
Qed.

(** When the log of the render has no entry for today, [processSuccess]
    of that render makes a new day object and leaves the render's log, as
    every array, as it was. *)
Lemma processSuccess_no_entry
    (Date_getTime : string → option Z) (r : Render) (now : Now)
    (pillName : string) (ty : DoseType) (w : World) :
  findDay (heap w) (isoDate now) (r_adherenceLog r) = None →
  let res := processSuccess Date_getTime r now pillName ty w in
  res.1 = Accepted
  ∧ heap res.2 = (heap w ++ [newDay (isoDate now) (localeTime now) pillName ty])%list
  ∧ adherenceLog res.2 = (r_adherenceLog r ++ [length (heap w)])%list.
Proof.
  intros Hnone. cbv zeta. unfold processSuccess. rewrite Hnone.
  cbn [slotTaken heap emit setAlert]. rewrite findIndex_findDay, Hnone.
  by cbn -[calculateStreak].
Qed.

(** X3.  Every tick of one detection run executes the closure of one render.
    If the log of that render has no entry for today, every detection of a
    slot label inside its window takes the recording branch, however many
    came before it in the run. *)
Lemma stale_render_accepts_every_time
    (Date_getTime : string → option Z) (r : Render) (today label : string)
    (ty : DoseType) (ds : list (Now * string * float)) (w : World) :
  findDay (heap w) today (r_adherenceLog r) = None →
  refsOk (heap w) (r_adherenceLog r) →
  Forall (λ d, d.1.2 = label ∧ isoDate d.1.1 = today
               ∧ checkPillValidity d.1.1 label = {| isValid := true; vtype := Some ty |}) ds →
  (detections Date_getTime r ds w).1 = replicate (length ds) Accepted.
Proof.
  revert w. induction ds as [|[[now l] c] ds IH]; intros w Hnone Hok Hds; [done|].
  apply Forall_cons in Hds as [(Hl & Hdate & Hv) Hds]. simpl in Hl, Hdate, Hv.
  subst l today.
  assert (Hign : ignoredLabel label = false).
  { assert (Hty : vtype (checkPillValidity now label) = Some ty) by by rewrite Hv.
    destruct (vtype_Some _ _ _ Hty) as [[-> _] | [-> _]]; reflexivity. }
  cbn [detections]. rewrite (handleDetection_valid _ _ _ _ ty) by done.
  set (w1 := setAlert _ w).
  destruct (processSuccess_no_entry Date_getTime r now label ty w1 Hnone)
    as (Ho & Hheap & _).
  destruct (processSuccess Date_getTime r now label ty w1) as [o w2].
  simpl in Ho, Hheap. subst o. cbn [fst snd].
  set (w3 := emit _ w2).
  specialize (IH w3). destruct (detections Date_getTime r ds w3) as [os w4].
  simpl in *. f_equal. apply IH; try done.
  - rewrite Hheap. by rewrite findDay_heap_grow.
  - rewrite Hheap. unfold refsOk in *. rewrite length_app.
    eapply Forall_impl; [done|]. simpl. lia.
Qed.

(** X4.  The same within one run when the render's log does have an entry for
    today (the other slot was recorded before the run started): the
    assignment goes to the day object that the render's array shares with
    the state, so the next detection of the run finds the slot taken. *)
Lemma processSuccess_marks_shared_day
    (Date_getTime : string → option Z) (r : Render) (now : Now)
    (pillName : string) (ty : DoseType) (w : World) (l : loc) :
  findDay (heap w) (isoDate now) (r_adherenceLog r) = Some l →
  slotTaken (heap w) ty (Some l) = false →
  localeTime now ≠ "" →
  let res := processSuccess Date_getTime r now pillName ty w in
  res.1 = Accepted
  ∧ heap res.2 = alter (set_taken ty (localeTime now)) l (heap w)
  ∧ slotTaken (heap res.2) ty (findDay (heap res.2) (isoDate now) (r_adherenceLog r))
    = true.
Proof.
  intros Hfind Hfree Htime. cbv zeta. unfold processSuccess.
  rewrite Hfind, Hfree. cbn [heap emit setAlert].
  rewrite findIndex_findDay, Hfind. cbn -[calculateStreak].
  split_and!; try done.
  rewrite findDay_alter, Hfind. cbn [slotTaken]. rewrite list_lookup_alter_eq.
  destruct (findDay_Some _ _ _ _ Hfind) as [_ (day & -> & _)]. simpl.
  rewrite taken_set_taken. simpl. apply negb_true_iff. by apply StrFacts.eqb_neq.
Qed.

(** C3, on the code.  A session over a stored document with an empty log;
    detection is started, and [pill_morning] is seen at 08:00 and again at
    08:01 in the same run.  Both detections take the recording branch: the
    confirmation sounds twice, and the entry of today in the log and in the
    stored document bears the time of the second detection, not of the
    first.  The counter ends at one all the same, because both calls add
    one to the counter of the render. *)
Theorem record_twice_in_one_detection_run :
  let clock (h m : Z) (t : string) :=
    {| isoDate := "2024-03-10"; hours := h; minutes := m; localeTime := t;
       isoDateDaysAgo := λ _, "2024-03-09" |} in
  let stored :=
    {| doc_adherenceLog := []; doc_currentStreak := 0;
       doc_totalPillsTaken := 0; doc_totalPillsScheduled := 0 |} in
  let seen :=
    Some [ {| className := "pill_morning"; probability := 0.875%float |};
           {| className := "no_pill"; probability := 0.125%float |} ] in
  let w0 := loadLocalData (clock 8 0 "08:00 AM")
              (initialState {[ DATA_KEY := Json stored ]}) in
  let r := render w0 in
  let first := detections isoDateValue r
                 [(clock 8 0 "08:00 AM", "pill_morning", 0.875%float)] w0 in
  let both := detections isoDateValue r
                 [(clock 8 0 "08:00 AM", "pill_morning", 0.875%float);
                  (clock 8 1 "08:01 AM", "pill_morning", 0.875%float)] w0 in
  let run := startDetection isoDateValue
               [(clock 8 0 "08:00 AM", seen); (clock 8 1 "08:01 AM", seen)] w0 in
  both.1 = [Accepted; Accepted]
  ∧ (taken ∘ morning <$> todayLog (heap first.2) "2024-03-10" (adherenceLog first.2))
      = Some (Some "08:00 AM")
  ∧ (taken ∘ morning <$> todayLog (heap both.2) "2024-03-10" (adherenceLog both.2))
      = Some (Some "08:01 AM")
  ∧ (taken ∘ morning <$>
       (localStorage both.2 !! DATA_KEY ≫= λ b,
          match b with Json d => head (doc_adherenceLog d) | Text _ => None end))
      = Some (Some "08:01 AM")
  ∧ soundsPlayed both.2 = 2%nat
  ∧ totalPillsTaken (counters (stats both.2)) = 1
  ∧ heap run = heap both.2
  ∧ adherenceLog run = adherenceLog both.2
  ∧ stats run = stats both.2
  ∧ localStorage run = localStorage both.2
  ∧ soundsPlayed run = 2%nat.
Proof. cbv zeta. split_and!; vm_compute; reflexivity. Qed.

(** In a run that starts when the morning dose of today is already in the
    log, two detections of [pill_evening] end as accepted and then already
    taken: the second call reads the field the first one assigned. *)
Lemma record_twice_with_shared_entry :
  let clock (h m : Z) (t : string) :=
    {| isoDate := "2024-03-10"; hours := h; minutes := m; localeTime := t;
       isoDateDaysAgo := λ _, "2024-03-09" |} in
  let today :=
    {| date := "2024-03-10";
       morning := {| scheduled := "08:00"; taken := Some "08:05 AM";
                     pillType := "pill_morning" |};
       evening := {| scheduled := "20:00"; taken := None;
                     pillType := "pill_morning" |} |} in
  let stored :=
    {| doc_adherenceLog := [today]; doc_currentStreak := 1;
       doc_totalPillsTaken := 1; doc_totalPillsScheduled := 0 |} in
  let w0 := loadLocalData (clock 20 0 "08:00 PM")
              (initialState {[ DATA_KEY := Json stored ]}) in
  let both := detections isoDateValue (render w0)
                 [(clock 20 0 "08:00 PM", "pill_evening", 0.875%float);
                  (clock 20 1 "08:01 PM", "pill_evening", 0.875%float)] w0 in
  both.1 = [Accepted; AlreadyTaken]
  ∧ (taken ∘ evening <$> todayLog (heap both.2) "2024-03-10" (adherenceLog both.2))
      = Some (Some "08:00 PM")
  ∧ soundsPlayed both.2 = 1%nat
  ∧ totalPillsTaken (counters (stats both.2)) = 2.
Proof. cbv zeta. split_and!; vm_compute; reflexivity. Qed.

(** ** What the store keeps true *)

Lemma dayOk_set_taken (ty : DoseType) (t : string) (day : DayLog) :
  t ≠ "" → dayOk day → dayOk (set_taken ty t day).
Proof.
  unfold dayOk, stampOk. intros Ht [Hm He].
  destruct ty; simpl; split; congruence.
Qed.

Lemma dayOk_newDay (today takenTime pillName : string) (ty : DoseType) :
  takenTime ≠ "" → dayOk (newDay today takenTime pillName ty).
Proof.
  unfold dayOk, stampOk. intros Ht.
  destruct ty; simpl; split; congruence.
Qed.

(** X6.  Timestamps stay time strings: [processSuccess] writes the reading of
    the clock, the mock history writes ["08:15"] and ["20:30"]. *)
Lemma processSuccess_dayOk
    (Date_getTime : string → option Z) (r : Render) (now : Now)
    (pillName : string) (ty : DoseType) (w : World) :
  localeTime now ≠ "" →
  Forall dayOk (heap w) →
  Forall dayOk (heap (processSuccess Date_getTime r now pillName ty w).2).
Proof.
  intros Htime Hok. unfold processSuccess.
  destruct (slotTaken _ _ _); [done|].
  cbn [heap emit setAlert]. rewrite findIndex_findDay.
  destruct (findDay (heap w) (isoDate now) (r_adherenceLog r)) as [l|];
    cbn -[calculateStreak].
  - rewrite Forall_lookup in Hok |- *. intros i day.
    destruct (decide (i = l)) as [->|Hne].
    + rewrite list_lookup_alter_eq. destruct (heap w !! l) as [d|] eqn:E; [|done].
      intros [= <-]. apply dayOk_set_taken; [done | by apply (Hok l)].
    + rewrite list_lookup_alter_ne by done. apply Hok.
  - apply Forall_app. split; [done|]. constructor; [|done].
    by apply dayOk_newDay.
Qed.

Lemma generateMockAdherence_dayOk (now : Now) :
  Forall dayOk (generateMockAdherence now).
Proof. repeat constructor; done. Qed.

(** ** The timers and the alert *)

(** The three-second timer of [handleDetection] clears the information
    alert only: a success or a warning that replaced it stays. *)
Lemma fireTimer_ClearAlertIfInfo (w : World) (a : Alert) :
  alert w = Some a →
  alert (fireTimer ClearAlertIfInfo w) = (if decide (type a = info) then None else Some a).
Proof.
  intros Ha. unfold fireTimer. rewrite Ha. by destruct (decide (type a = info)).
Qed.

(** ** The stored document of a first run *)

(** On a first run the statistics object is the mock object itself, and it
    brings its [adherenceLog] property into every later snapshot: the day
    recorded in that session reaches the state, not the stored document. *)
Lemma first_run_snapshot_keeps_mock_log :
  let now := {| isoDate := "2024-03-10"; hours := 8; minutes := 0;
                localeTime := "08:00 AM";
                isoDateDaysAgo := λ i, "2024-03-0" +:+ String (ascii_of_nat (Z.to_nat (58 - i))) "" |} in
  let w0 := loadLocalData now (initialState ∅) in
  let res := clickTest isoDateValue now "pill_morning" w0 in
  res.1 = Accepted
  ∧ length (adherenceLog res.2) = 8%nat
  ∧ (localStorage res.2 !! DATA_KEY ≫= λ b,
       match b with
       | Json d => Some (doc_adherenceLog d, doc_totalPillsTaken d)
       | Text _ => None
       end)
    = Some (generateMockAdherence now, 48).
Proof. cbv zeta. split_and!; vm_compute; reflexivity. Qed.

(** ** The streak *)

Section Streak.

Variable Date_getTime : string → option Z.

Local Abbreviation valid := (λ d : DayLog, is_Some (Date_getTime (date d))).
Local Abbreviation cmp := (byDateDesc Date_getTime).
Local Abbreviation desc := (descends Date_getTime).

Lemma insertSorted_perm (x : DayLog) (l : list DayLog) :
  insertSorted cmp x l ≡ₚ x :: l.
Proof.
  induction l as [|y ys IH]; [done|]. simpl.
  destruct (cmp x y <=? 0); [done|]. by rewrite IH, Permutation_swap.
Qed.

Lemma sortWith_perm (l : list DayLog) : sortWith cmp l ≡ₚ l.
Proof.
  induction l as [|x xs IH]; [done|]. simpl.
  by rewrite insertSorted_perm, IH.
Qed.

Lemma cmp_le_desc (a b : DayLog) :
  valid a → valid b → cmp a b ≤ 0 → desc a b.
Proof.
  unfold byDateDesc, descends. intros [ta ->] [tb ->]. lia.
Qed.

Lemma cmp_gt_desc (a b : DayLog) :
  valid a → valid b → ¬ cmp a b ≤ 0 → desc b a.
Proof.
  unfold byDateDesc, descends. intros [ta ->] [tb ->]. lia.
Qed.

Lemma desc_trans (a b c : DayLog) : desc a b → desc b c → desc a c.
Proof.
  unfold descends.
  destruct (Date_getTime (date a)), (Date_getTime (date b)),
           (Date_getTime (date c)); try done. lia.
Qed.

Lemma insertSorted_sorted (x : DayLog) (l : list DayLog) :
  valid x → Forall valid l →
  StronglySorted desc l → StronglySorted desc (insertSorted cmp x l).
Proof.
  intros Hx. induction l as [|y ys IH]; intros Hl Hs; simpl.
  { by repeat constructor. }
  apply Forall_cons in Hl as [Hy Hys].
  apply StronglySorted_inv in Hs as [Hs Hall].
  destruct (Z.leb_spec (cmp x y) 0) as [Hle|Hgt].
  - constructor; [by constructor|].
    assert (Hxy : desc x y) by by apply cmp_le_desc.
    constructor; [done|].
    eapply Forall_impl; [exact Hall|]. intros z Hz. by apply desc_trans with y.
  - constructor; [by apply IH|].
    rewrite insertSorted_perm. constructor; [|done].
    apply cmp_gt_desc; [done | done | lia].
Qed.

Lemma sortWith_sorted (l : list DayLog) :
  Forall valid l → StronglySorted desc (sortWith cmp l).
Proof.
  induction l as [|x xs IH]; intros Hl; simpl; [constructor|].
  apply Forall_cons in Hl as [Hx Hxs].
  apply insertSorted_sorted; [done | by rewrite sortWith_perm | by apply IH].
Qed.

(** The sort is stable: the days of any one date keep their order. *)
Lemma insertSorted_stable (x : DayLog) (l : list DayLog) (P : DayLog → bool) :
  Forall valid (x :: l) →
  StronglySorted desc l →
  (∀ a b, valid a → valid b → P a = true → P b = true → cmp a b = 0) →
  List.filter P (insertSorted cmp x l) = List.filter P (x :: l).
Proof.
  intros Hv Hs HP. apply Forall_cons in Hv as [Hx Hl].
  induction l as [|y ys IH]; [done|]. simpl.
  apply Forall_cons in Hl as [Hy Hys].
  apply StronglySorted_inv in Hs as [Hs Hall].
  destruct (Z.leb_spec (cmp x y) 0) as [Hle|Hgt]; [done|].
  simpl. specialize (IH Hys Hs). simpl in IH.
  destruct (P x) eqn:Px, (P y) eqn:Py; rewrite IH; try done.
  specialize (HP x y Hx Hy Px Py). lia.
Qed.

Lemma streakLoop_keptRun (sorted : list DayLog) (k : Z) :
  streakLoop sorted k = k + Z.of_nat (keptRun sorted).
Proof.
  revert k. induction sorted as [|day rest IH]; intros k;
    cbn [streakLoop keptRun]; [lia|].
  destruct (anyTaken day); [rewrite IH|]; lia.
Qed.

Lemma truthy_stampOk (t : option string) :
  stampOk t → truthy t = true ↔ t ≠ None.
Proof.
  unfold stampOk, truthy. destruct t as [s|]; [|done]. intros Hs.
  rewrite negb_true_iff, StrFacts.eqb_neq. split; [done | congruence].
Qed.

Lemma anyTaken_dayKept (day : DayLog) :
  dayOk day → anyTaken day = true ↔ dayKept day.
Proof.
  intros [Hm He]. unfold anyTaken, dayKept.
  by rewrite orb_true_iff, !truthy_stampOk.
Qed.

Lemma keptRun_longest (sorted : list DayLog) :
  Forall dayOk sorted → longestKeptPrefix sorted (keptRun sorted).
Proof.
  unfold longestKeptPrefix.
  induction sorted as [|day rest IH]; intros Hok; simpl.
  { split_and!; [lia | done | lia]. }
  apply Forall_cons in Hok as [Hday Hrest].
  destruct (IH Hrest) as (Hlen & Hall & Hmax).
  destruct (anyTaken day) eqn:Hany.
  - split_and!; [lia | |].
    + simpl. constructor; [by apply anyTaken_dayKept | done].
    + intros [|m] Hm Hkept; [lia|]. simpl in Hkept.
      apply Forall_cons in Hkept as [_ Hkept]. simpl in Hm.
      apply Hmax in Hkept; lia.
  - split_and!; [lia | done |].
    intros [|m] Hm Hkept; [lia|]. simpl in Hkept.
    apply Forall_cons in Hkept as [Hkept _].
    apply anyTaken_dayKept in Hkept; [congruence | done].
Qed.

End Streak.

(** C4.  For logs whose dates are valid and whose timestamps are time
    strings, [calculateStreak] returns the length of the longest prefix, of
    the logs sorted by date descending, in which every day has a slot with a
    timestamp that is not [null]. *)
Theorem calculateStreak_longest_kept_prefix
    (Date_getTime : string → option Z) (logs : list DayLog) :
  Forall (λ d, is_Some (Date_getTime (date d))) logs →
  Forall dayOk logs →
  ∃ sorted n,
    sortedByDateDesc Date_getTime logs sorted
    ∧ longestKeptPrefix sorted n
    ∧ calculateStreak Date_getTime logs = Z.of_nat n.
Proof.
  intros Hvalid Hok.
  exists (sortWith (byDateDesc Date_getTime) logs),
         (keptRun (sortWith (byDateDesc Date_getTime) logs)).
  split_and!.
  - split; [apply sortWith_perm | by apply sortWith_sorted].
  - apply keptRun_longest. by rewrite sortWith_perm.
  - unfold calculateStreak. by rewrite streakLoop_keptRun.
Qed.

(** The example of the specification: taken, not taken, taken, most recent
    first, gives a streak of one. *)
Lemma calculateStreak_longest_kept_prefix_witness :
  let slotOf (t : option string) :=
    {| scheduled := "08:00"; taken := t; pillType := "pill_morning" |} in
  let logs :=
    [ {| date := "2024-03-10"; morning := slotOf (Some "08:05 AM"); evening := slotOf None |};
      {| date := "2024-03-09"; morning := slotOf None; evening := slotOf None |};
      {| date := "2024-03-08"; morning := slotOf None; evening := slotOf (Some "08:10 PM") |} ] in
  calculateStreak isoDateValue logs = 1
  ∧ ∃ sorted n,
      sortedByDateDesc isoDateValue logs sorted
      ∧ longestKeptPrefix sorted n
      ∧ calculateStreak isoDateValue logs = Z.of_nat n.
Proof.
  cbv zeta. split; [reflexivity|].
  apply calculateStreak_longest_kept_prefix.
  - repeat constructor; by eexists.
  - repeat constructor; done.
Defined.

Lemma sortWith_stable
    (Date_getTime : string → option Z) (l : list DayLog) (P : DayLog → bool) :
  Forall (λ d, is_Some (Date_getTime (date d))) l →
  (∀ a b, is_Some (Date_getTime (date a)) → is_Some (Date_getTime (date b)) →
          P a = true → P b = true → byDateDesc Date_getTime a b = 0) →
  List.filter P (sortWith (byDateDesc Date_getTime) l) = List.filter P l.
Proof.
  intros Hv HP. induction l as [|x xs IH]; [done|].
  apply Forall_cons in Hv as [Hx Hxs]. cbn [sortWith].
  rewrite insertSorted_stable.
  - simpl. by rewrite IH.
  - constructor; [done | by rewrite sortWith_perm].
  - by apply sortWith_sorted.
  - done.
Qed.

(** ** Reminder sweep *)

Lemma slotTaken_false (h : list DayLog) (ty : DoseType) (today : string)
    (log : list loc) :
  (∀ day, todayLog h today log = Some day → dayOk day) →
  slotTaken h ty (findDay h today log) = false
  ↔ todayLog h today log = None
    ∨ ∃ day, todayLog h today log = Some day ∧ taken (slot ty day) = None.
Proof.
  unfold todayLog, slotTaken. intros Hok.
  destruct (findDay h today log) as [l|]; simpl in *; [|by split; [left|]].
  destruct (h !! l) as [day|]; [|by split; [left|]].
  assert (Hstamp : stampOk (taken (slot ty day))).
  { destruct (Hok day eq_refl) as [? ?]. by destruct ty. }
  apply truthy_stampOk in Hstamp.
  destruct (truthy (taken (slot ty day))) eqn:Ht.
  - split; [done|]. intros [? | (d & [= <-] & Hd)]; [done|].
    apply Hstamp in Hd; done.
  - split; [|done]. intros _. right. exists day. split; [done|].
    destruct (taken (slot ty day)) eqn:E; [|done].
    exfalso. assert (false = true) by (by apply Hstamp). done.
Qed.

(** What the sweep does, call by call. *)
Lemma checkReminders_effects (r : Render) (now : Now) (w : World) :
  let log := findDay (heap w) (isoDate now) (r_adherenceLog r) in
  effects (checkReminders r now w) =
    (effects w ++
      ((if (hours now =? 8) && (minutes now =? 15) && negb (slotTaken (heap w) Morning log)
        then [SendNotification Morning] else []) ++
       (if (hours now =? 20) && (minutes now =? 15) && negb (slotTaken (heap w) Evening log)
        then [SendNotification Evening] else [])))%list
  ∧ heap (checkReminders r now w) = heap w
  ∧ adherenceLog (checkReminders r now w) = adherenceLog w
  ∧ stats (checkReminders r now w) = stats w
  ∧ localStorage (checkReminders r now w) = localStorage w.
Proof.
  cbv zeta. unfold checkReminders.
  destruct (_ && _ && negb (slotTaken _ Morning _));
    cbn [heap emit effects adherenceLog stats localStorage];
    destruct (_ && _ && negb (slotTaken _ Evening _));
    cbn [heap emit effects adherenceLog stats localStorage app];
    rewrite <- ?app_assoc, ?app_nil_r; done.
Qed.

(** C8.  At any hour and minute, the sweep calls [sendNotification] for a
    slot exactly when the time is 8:15 for the morning slot, or 20:15 for
    the evening slot, and either no day of the log bears today's date or
    the first day that bears it has [null] in that slot; it calls it at most
    once for each slot and does nothing else.  The log is the one the sweep
    holds, which the effect renews with every change of the log. *)
Theorem checkReminders_fires_iff_due
    (r : Render) (now : Now) (w : World) (ty : DoseType) :
  (∀ day, entryOf (isoDate now) (readLog (heap w) (r_adherenceLog r)) day →
          dayOk day) →
  ∃ fired,
    effects (checkReminders r now w) = (effects w ++ fired)%list
    ∧ NoDup fired
    ∧ (SendNotification ty ∈ fired
       ↔ (hours now, minutes now)
           = match ty with Morning => (8, 15) | Evening => (20, 15) end
         ∧ (noEntry (isoDate now) (readLog (heap w) (r_adherenceLog r))
            ∨ ∃ day, entryOf (isoDate now) (readLog (heap w) (r_adherenceLog r)) day
                   ∧ taken (slot ty day) = None))
    ∧ (∀ e, e ∈ fired → e = SendNotification Morning ∨ e = SendNotification Evening)
    ∧ heap (checkReminders r now w) = heap w
    ∧ adherenceLog (checkReminders r now w) = adherenceLog w
    ∧ stats (checkReminders r now w) = stats w
    ∧ localStorage (checkReminders r now w) = localStorage w.
Proof.
  intros Hok.
  assert (Hok' : ∀ day, todayLog (heap w) (isoDate now) (r_adherenceLog r) = Some day →
                        dayOk day).
  { intros day Hday. by apply Hok, todayLog_entryOf. }
  pose proof (slotTaken_false (heap w) ty _ _ Hok') as Hnull.
  rewrite todayLog_noEntry in Hnull.
  setoid_rewrite todayLog_entryOf in Hnull.
  destruct (checkReminders_effects r now w) as (Heff & Hh & Hl & Hs & Hst).
  eexists. split; [exact Heff|].
  split_and!; try done.
  - destruct (_ && _ && negb (slotTaken _ Morning _)),
             (_ && _ && negb (slotTaken _ Evening _)); simpl.
    + apply NoDup_cons. split; [|apply NoDup_singleton].
      rewrite list_elem_of_singleton. congruence.
    + apply NoDup_singleton.
    + apply NoDup_singleton.
    + apply NoDup_nil_2.
  - rewrite elem_of_app, <- Hnull.
    destruct ty; split.
    + intros [H|H].
      * destruct (_ && _ && negb (slotTaken _ Morning _)) eqn:E;
          [|by apply elem_of_nil in H].
        apply andb_true_iff in E as [E E3]. apply andb_true_iff in E as [E1 E2].
        apply Z.eqb_eq in E1, E2. apply negb_true_iff in E3.
        split; [congruence | done].
      * destruct (_ && _ && negb (slotTaken _ Evening _));
          [apply list_elem_of_singleton in H | apply elem_of_nil in H]; done.
    + intros [[= -> ->] ->]. left. simpl. by apply list_elem_of_singleton.
    + intros [H|H].
      * destruct (_ && _ && negb (slotTaken _ Morning _));
          [apply list_elem_of_singleton in H | apply elem_of_nil in H]; done.
      * destruct (_ && _ && negb (slotTaken _ Evening _)) eqn:E;
          [|by apply elem_of_nil in H].
        apply andb_true_iff in E as [E E3]. apply andb_true_iff in E as [E1 E2].
        apply Z.eqb_eq in E1, E2. apply negb_true_iff in E3.
        split; [congruence | done].
    + intros [[= -> ->] ->]. right. simpl. by apply list_elem_of_singleton.
  - intros e. rewrite elem_of_app. intros [H|H].
    + destruct (_ && _ && negb (slotTaken _ Morning _));
        [apply list_elem_of_singleton in H; by left | by apply elem_of_nil in H].
    + destruct (_ && _ && negb (slotTaken _ Evening _));
        [apply list_elem_of_singleton in H; by right | by apply elem_of_nil in H].
Qed.

Lemma checkReminders_fires_iff_due_witness :
  let now := {| isoDate := "2024-03-10"; hours := 8; minutes := 15;
                localeTime := "08:15 AM"; isoDateDaysAgo := λ _, "2024-03-09" |} in
  let yesterday :=
    {| date := "2024-03-09";
       morning := {| scheduled := "08:00"; taken := Some "08:05 AM";
                     pillType := "pill_morning" |};
       evening := {| scheduled := "20:00"; taken := None; pillType := "pill_morning" |} |} in
  let today :=
    {| date := "2024-03-10";
       morning := {| scheduled := "08:00"; taken := None; pillType := "pill_evening" |};
       evening := {| scheduled := "20:00"; taken := Some "08:10 PM";
                     pillType := "pill_evening" |} |} in
  let w := setAdherenceLog [0%nat; 1%nat] (setHeap [yesterday; today] (initialState ∅)) in
  let r := render w in
  effects (checkReminders r now w) = [SendNotification Morning]
  ∧ entryOf (isoDate now) (readLog (heap w) (r_adherenceLog r)) today
  ∧ ∃ fired,
    effects (checkReminders r now w) = (effects w ++ fired)%list
    ∧ NoDup fired
    ∧ (SendNotification Morning ∈ fired
       ↔ (hours now, minutes now) = (8, 15)
         ∧ (noEntry (isoDate now) (readLog (heap w) (r_adherenceLog r))
            ∨ ∃ day, entryOf (isoDate now) (readLog (heap w) (r_adherenceLog r)) day
                   ∧ taken (slot Morning day) = None))
    ∧ (∀ e, e ∈ fired → e = SendNotification Morning ∨ e = SendNotification Evening)
    ∧ heap (checkReminders r now w) = heap w
    ∧ adherenceLog (checkReminders r now w) = adherenceLog w
    ∧ stats (checkReminders r now w) = stats w
    ∧ localStorage (checkReminders r now w) = localStorage w.
Proof.
  cbv zeta. split; [reflexivity|]. split.
  { eexists [_], []. split_and!; [reflexivity | reflexivity |].
    constructor; [done | constructor]. }
  apply (checkReminders_fires_iff_due _ _ _ Morning).
  intros day (before & after & Heq & _).
  assert (Hin : day ∈ readLog
            (heap (setAdherenceLog [0%nat; 1%nat]
               (setHeap [ {| date := "2024-03-09";
                             morning := {| scheduled := "08:00"; taken := Some "08:05 AM";
                                           pillType := "pill_morning" |};
                             evening := {| scheduled := "20:00"; taken := None;
                                           pillType := "pill_morning" |} |};
                          {| date := "2024-03-10";
                             morning := {| scheduled := "08:00"; taken := None;
                                           pillType := "pill_evening" |};
                             evening := {| scheduled := "20:00"; taken := Some "08:10 PM";
                                           pillType := "pill_evening" |} |} ]
                  (initialState ∅))))
            [0%nat; 1%nat]).
  { cbn [r_adherenceLog render adherenceLog setAdherenceLog] in Heq.
    rewrite Heq. apply elem_of_app. right. left. }
  cbn in Hin. apply elem_of_cons in Hin as [-> | Hin]; [by split|].
  apply list_elem_of_singleton in Hin as ->. by split.
Defined.

(** What the notification collaborator does with a call: it shows the
    reminder when the permission is ["granted"] and swallows the call
    otherwise. *)
Lemma sendNotification_permission (permission : string) (ty : DoseType) :
  (permission = "granted" →
     sendNotification permission ty
       = Some ("DoseWise Reminder",
               "Reminder: Time to take your " +:+ doseName ty +:+ " medication"))
  ∧ (permission ≠ "granted" → sendNotification permission ty = None).
Proof.
  unfold sendNotification. split.
  - intros ->. done.
  - intros H. apply StrFacts.eqb_neq in H. by rewrite H.
Qed.

(** ** Persistence *)

Lemma readLog_allocAll (ds h : list DayLog) :
  readLog (allocAll ds h).1 (allocAll ds h).2 = ds.
Proof.
  unfold readLog, allocAll. simpl. revert h.
  induction ds as [|d ds IH]; intros h; [done|]. simpl.
  rewrite lookup_app_r, Nat.sub_diag by lia. simpl. f_equal.
  specialize (IH (h ++ [d])%list).
  rewrite length_app, Nat.add_1_r, <- app_assoc in IH. exact IH.
Qed.

(** The branch of [loadLocalData] without a stored document. *)
Lemma loadMock_spec (now : Now) (w : World) :
  readLog (heap (loadMock now w)) (adherenceLog (loadMock now w))
    = generateMockAdherence now
  ∧ counters (stats (loadMock now w)) = mockCounters
  ∧ localStorage (loadMock now w)
    = <[DATA_KEY := Json {| doc_adherenceLog := generateMockAdherence now;
                            doc_currentStreak := 5;
                            doc_totalPillsTaken := 47;
                            doc_totalPillsScheduled := 50 |}]> (localStorage w)
  ∧ modelUrl (loadMock now w) = modelUrl w.
Proof.
  unfold loadMock.
  pose proof (readLog_allocAll (generateMockAdherence now) (heap w)) as H.
  destruct (allocAll (generateMockAdherence now) (heap w)) as [h log].
  by cbn.
Qed.

(** C10.  A session that starts without a stored document shows the seven
    mock days, from seven days ago to yesterday, with the morning dose
    missing six and three days ago and the evening dose missing four days
    ago, under the fixed statistics 5, 47 and 50, and has stored exactly
    that as the document. *)
Theorem first_run_loads_mock_history (now : Now) (ls : gmap string Blob) :
  ls !! DATA_KEY = None →
  let w := loadLocalData now (initialState ls) in
  let log := readLog (heap w) (adherenceLog w) in
  log = generateMockAdherence now
  ∧ date <$> log = isoDateDaysAgo now <$> [7; 6; 5; 4; 3; 2; 1]
  ∧ taken ∘ morning <$> log
    = [Some "08:15"; None; Some "08:15"; Some "08:15"; None; Some "08:15"; Some "08:15"]
  ∧ taken ∘ evening <$> log
    = [Some "20:30"; Some "20:30"; Some "20:30"; None; Some "20:30"; Some "20:30";
       Some "20:30"]
  ∧ counters (stats w)
    = {| currentStreak := 5; totalPillsTaken := 47; totalPillsScheduled := 50 |}
  ∧ localStorage w
    = <[DATA_KEY := Json {| doc_adherenceLog := log;
                            doc_currentStreak := 5;
                            doc_totalPillsTaken := 47;
                            doc_totalPillsScheduled := 50 |}]> ls.
Proof.
  intros Hnone. cbv zeta. unfold loadLocalData.
  cbn [localStorage initialState]. rewrite Hnone.
  destruct (loadMock_spec now (initialState ls)) as (Hlog & Hst & Hls & _).
  rewrite Hlog, Hst, Hls. by split_and!.
Qed.

Lemma first_run_loads_mock_history_witness :
  let now := {| isoDate := "2024-03-10"; hours := 8; minutes := 0;
                localeTime := "08:00 AM";
                isoDateDaysAgo := λ i, "2024-03-0" +:+ String (ascii_of_nat (Z.to_nat (58 - i))) "" |} in
  let w := loadLocalData now (initialState ∅) in
  let log := readLog (heap w) (adherenceLog w) in
  date <$> log = ["2024-03-03"; "2024-03-04"; "2024-03-05"; "2024-03-06";
                  "2024-03-07"; "2024-03-08"; "2024-03-09"]
  ∧ log = generateMockAdherence now
  ∧ date <$> log = isoDateDaysAgo now <$> [7; 6; 5; 4; 3; 2; 1]
  ∧ taken ∘ morning <$> log
    = [Some "08:15"; None; Some "08:15"; Some "08:15"; None; Some "08:15"; Some "08:15"]
  ∧ taken ∘ evening <$> log
    = [Some "20:30"; Some "20:30"; Some "20:30"; None; Some "20:30"; Some "20:30";
       Some "20:30"]
  ∧ counters (stats w)
    = {| currentStreak := 5; totalPillsTaken := 47; totalPillsScheduled := 50 |}
  ∧ localStorage w
    = <[DATA_KEY := Json {| doc_adherenceLog := log;
                            doc_currentStreak := 5;
                            doc_totalPillsTaken := 47;
                            doc_totalPillsScheduled := 50 |}]> ∅.
Proof.
  cbv zeta. split; [reflexivity|].
  apply first_run_loads_mock_history. reflexivity.
Defined.

(** C1, as the source has it.  [clearData], once confirmed, removes the
    adherence document and nothing else from the blob store: the model URL
    stays.  The session that starts after the reload finds no document and
    therefore shows the mock history under the statistics 5, 47 and 50,
    which it stores again; it reads the model URL that was kept.  Without
    the confirmation nothing happens. *)
Theorem clearData_removes_document_only (now : Now) (w : World) :
  let w1 := clearData true w in
  let w2 := restart now w1 in
  localStorage w1 = delete DATA_KEY (localStorage w)
  ∧ localStorage w1 !! DATA_KEY = None
  ∧ localStorage w1 !! MODEL_URL_KEY = localStorage w !! MODEL_URL_KEY
  ∧ effects w1 = (effects w ++ [Reload])%list
  ∧ counters (stats w2)
    = {| currentStreak := 5; totalPillsTaken := 47; totalPillsScheduled := 50 |}
  ∧ readLog (heap w2) (adherenceLog w2) = generateMockAdherence now
  ∧ localStorage w2 !! DATA_KEY
    = Some (Json {| doc_adherenceLog := generateMockAdherence now;
                    doc_currentStreak := 5;
                    doc_totalPillsTaken := 47;
                    doc_totalPillsScheduled := 50 |})
  ∧ localStorage w2 !! MODEL_URL_KEY = localStorage w !! MODEL_URL_KEY
  ∧ modelUrl w2 = match localStorage w !! MODEL_URL_KEY with
                  | Some (Text url) => url
                  | _ => ""
                  end
  ∧ clearData false w = w.
Proof.
  cbv zeta. unfold restart, clearData, loadLocalData.
  cbn [localStorage setStorage emit initialState].
  rewrite lookup_delete_eq.
  destruct (loadMock_spec now (initialState (delete DATA_KEY (localStorage w))))
    as (Hlog & Hst & Hls & Hurl).
  rewrite Hlog, Hst, Hls, Hurl. cbn [localStorage initialState modelUrl].
  split_and!; try done.
  - by rewrite lookup_delete_ne.
  - by rewrite lookup_insert_eq.
  - by rewrite lookup_insert_ne, lookup_delete_ne.
  - by rewrite lookup_delete_ne.
Qed.

(** The claim of C1 as the specification words it fails: after a confirmed
    reset of a session that had a model URL and an empty record, the model
    URL is still stored, and the restarted session does not show zeroes. *)
Lemma clearData_keeps_url_and_mock_stats :
  let now := {| isoDate := "2024-03-10"; hours := 8; minutes := 0;
                localeTime := "08:00 AM"; isoDateDaysAgo := λ _, "2024-03-09" |} in
  let stored :=
    {| doc_adherenceLog := []; doc_currentStreak := 0;
       doc_totalPillsTaken := 0; doc_totalPillsScheduled := 0 |} in
  let w := updateModelUrl "https://example.org/model/"
             (loadLocalData now (initialState {[ DATA_KEY := Json stored ]})) in
  let w1 := clearData true w in
  let w2 := restart now w1 in
  localStorage w1 !! MODEL_URL_KEY = Some (Text "https://example.org/model/")
  ∧ counters (stats w2) ≠ zeroStats
  ∧ counters (stats w2)
    = {| currentStreak := 5; totalPillsTaken := 47; totalPillsScheduled := 50 |}.
Proof. cbv zeta. split_and!; [by vm_compute | by vm_compute | by vm_compute]. Qed.

(** * Further properties of the handlers *)

(** ** The recording branch, in full *)

(** The world that the recording branch of [processSuccess] leaves. *)
Lemma processSuccess_eq
    (Date_getTime : string → option Z) (r : Render) (now : Now)
    (pillName : string) (ty : DoseType) (w : World) :
  slotTaken (heap w) ty (findDay (heap w) (isoDate now) (r_adherenceLog r)) = false →
  let found := findDay (heap w) (isoDate now) (r_adherenceLog r) in
  let h := match found with
           | Some l => alter (set_taken ty (localeTime now)) l (heap w)
           | None => (heap w ++ [newDay (isoDate now) (localeTime now) pillName ty])%list
           end in
  let newLog := match found with
                | Some _ => r_adherenceLog r
                | None => (r_adherenceLog r ++ [length (heap w)])%list
                end in
  let newStats :=
    {| counters :=
         {| currentStreak := calculateStreak Date_getTime (readLog h newLog);
            totalPillsTaken := totalPillsTaken (counters (r_stats r)) + 1;
            totalPillsScheduled := totalPillsScheduled (counters (r_stats r)) |};
       adherenceLogProp := adherenceLogProp (r_stats r) |} in
  processSuccess Date_getTime r now pillName ty w =
    (Accepted,
     {| heap := h; adherenceLog := newLog; stats := newStats;
        alert := Some (takenAlert pillName); prediction := prediction w;
        modelUrl := modelUrl w;
        localStorage := <[DATA_KEY := Json (snapshot h newLog newStats)]> (localStorage w);
        effects := (effects w ++ [PlaySuccessSound; SetTimeout ClearAlert 5000])%list |}).
Proof.
  intros Hfree. cbv zeta. unfold processSuccess. rewrite Hfree.
  cbn [heap emit setAlert]. rewrite findIndex_findDay.
  destruct (findDay (heap w) (isoDate now) (r_adherenceLog r)) as [l|];
    cbn [mbind option_bind]; rewrite ?list_lookup_lookup_total by done;
    unfold emit, setStorage, setStats, setAdherenceLog, setHeap, setAlert;
    cbn [heap adherenceLog stats alert prediction modelUrl localStorage effects];
    by rewrite <- app_assoc.
Qed.

Lemma slot_set_taken_other (ty ty' : DoseType) (t : string) (day : DayLog) :
  ty' ≠ ty → slot ty' (set_taken ty t day) = slot ty' day.
Proof. by destruct ty, ty'. Qed.

(** The outcome of [processSuccess] is one of two. *)
Lemma processSuccess_cases
    (Date_getTime : string → option Z) (r : Render) (now : Now)
    (pillName : string) (ty : DoseType) (w : World) :
  (slotTaken (heap w) ty (findDay (heap w) (isoDate now) (r_adherenceLog r)) = true
   ∧ processSuccess Date_getTime r now pillName ty w = (AlreadyTaken, w))
  ∨ (slotTaken (heap w) ty (findDay (heap w) (isoDate now) (r_adherenceLog r)) = false
     ∧ (processSuccess Date_getTime r now pillName ty w).1 = Accepted).
Proof.
  destruct (slotTaken _ _ _) eqn:E.
  - left. split; [done | by apply processSuccess_already].
  - right. split; [done|]. by rewrite processSuccess_eq.
Qed.

(** X1.  A detection of a slot label inside its window, in a render whose
    log does not show the slot taken today, is accepted: the tone is played
    once, the success alert is up, the two timers are set, the counter of
    taken doses is the render's plus one as long as the render's is a safe
    integer, the scheduled counter is the render's, the streak is recomputed
    from the new log, today's slot holds the reading of the clock, and the
    document is stored with these numbers. *)
Theorem detection_in_window_is_recorded
    (Date_getTime : string → option Z) (r : Render) (now : Now)
    (label : string) (ty : DoseType) (c : float) (w : World) :
  checkPillValidity now label = {| isValid := true; vtype := Some ty |} →
  refsOk (heap w) (r_adherenceLog r) →
  slotTaken (heap w) ty (findDay (heap w) (isoDate now) (r_adherenceLog r)) = false →
  isSafeInteger (totalPillsTaken (counters (r_stats r))) = true →
  let res := handleDetection Date_getTime r now label c w in
  res.1 = Accepted
  ∧ alert res.2 = Some (takenAlert label)
  ∧ effects res.2
    = (effects w ++ [PlaySuccessSound; SetTimeout ClearAlert 5000;
                     SetTimeout ClearAlertIfInfo 3000])%list
  ∧ totalPillsTaken (counters (stats res.2)) = totalPillsTaken (counters (r_stats r)) + 1
  ∧ totalPillsScheduled (counters (stats res.2))
    = totalPillsScheduled (counters (r_stats r))
  ∧ currentStreak (counters (stats res.2))
    = calculateStreak Date_getTime (readLog (heap res.2) (adherenceLog res.2))
  ∧ (∃ day, todayLog (heap res.2) (isoDate now) (adherenceLog res.2) = Some day
          ∧ taken (slot ty day) = Some (localeTime now))
  ∧ ∃ doc, localStorage res.2 = <[DATA_KEY := Json doc]> (localStorage w)
         ∧ doc_totalPillsTaken doc = totalPillsTaken (counters (stats res.2))
         ∧ doc_totalPillsScheduled doc = totalPillsScheduled (counters (stats res.2))
         ∧ doc_currentStreak doc = currentStreak (counters (stats res.2)).
Proof.
  intros Hv Hok Hfree _. cbv zeta.
  assert (Hign : ignoredLabel label = false).
  { assert (Hty : vtype (checkPillValidity now label) = Some ty) by by rewrite Hv.
    destruct (vtype_Some _ _ _ Hty) as [[-> _] | [-> _]]; reflexivity. }
  rewrite (handleDetection_valid _ _ _ _ ty) by done.
  set (w1 := setAlert _ w).
  destruct (processSuccess_accepted Date_getTime r now label ty w1 Hok Hfree)
    as (_ & _ & Hday & _).
  rewrite (processSuccess_eq Date_getTime r now label ty w1 Hfree) in Hday |- *.
  cbn -[calculateStreak] in Hday |- *.
  split_and!; try done.
  - by rewrite <- app_assoc.
  - eexists. split; [done|]. done.
Qed.

Lemma detection_in_window_is_recorded_witness :
  let now := {| isoDate := "2024-03-10"; hours := 8; minutes := 0;
                localeTime := "08:00 AM"; isoDateDaysAgo := λ _, "2024-03-09" |} in
  let w := initialState ∅ in
  let res := handleDetection isoDateValue (render w) now "pill_morning" 0.875%float w in
  (totalPillsTaken (counters (stats res.2)) = 1
   ∧ currentStreak (counters (stats res.2)) = 1)
  ∧ res.1 = Accepted
  ∧ alert res.2 = Some (takenAlert "pill_morning")
  ∧ effects res.2
    = (effects w ++ [PlaySuccessSound; SetTimeout ClearAlert 5000;
                     SetTimeout ClearAlertIfInfo 3000])%list
  ∧ totalPillsTaken (counters (stats res.2))
    = totalPillsTaken (counters (r_stats (render w))) + 1
  ∧ totalPillsScheduled (counters (stats res.2))
    = totalPillsScheduled (counters (r_stats (render w)))
  ∧ currentStreak (counters (stats res.2))
    = calculateStreak isoDateValue (readLog (heap res.2) (adherenceLog res.2))
  ∧ (∃ day, todayLog (heap res.2) (isoDate now) (adherenceLog res.2) = Some day
          ∧ taken (slot Morning day) = Some (localeTime now))
  ∧ ∃ doc, localStorage res.2 = <[DATA_KEY := Json doc]> (localStorage w)
         ∧ doc_totalPillsTaken doc = totalPillsTaken (counters (stats res.2))
         ∧ doc_totalPillsScheduled doc = totalPillsScheduled (counters (stats res.2))
         ∧ doc_currentStreak doc = currentStreak (counters (stats res.2)).
Proof.
  cbv zeta. split; [split; reflexivity|].
  apply (detection_in_window_is_recorded isoDateValue _ _ _ Morning);
    [reflexivity | constructor | reflexivity | reflexivity].
Defined.

(** ** Witnesses for the two paths of a second detection *)

Lemma record_twice_with_fresh_render_witness :
  let clock (m : Z) (t : string) :=
    {| isoDate := "2024-03-10"; hours := 8; minutes := m; localeTime := t;
       isoDateDaysAgo := λ _, "2024-03-09" |} in
  let w := initialState ∅ in
  let res1 := clickTest isoDateValue (clock 0 "08:00 AM") "pill_morning" w in
  let res2 := clickTest isoDateValue (clock 1 "08:01 AM") "pill_morning" res1.2 in
  res1.1 = Accepted
  ∧ res2.1 = AlreadyTaken
  ∧ heap res2.2 = heap res1.2
  ∧ adherenceLog res2.2 = adherenceLog res1.2
  ∧ stats res2.2 = stats res1.2
  ∧ localStorage res2.2 = localStorage res1.2
  ∧ totalPillsTaken (counters (stats res2.2))
      = totalPillsTaken (counters (stats w)) + 1
  ∧ ∃ day, todayLog (heap res2.2) "2024-03-10" (adherenceLog res2.2) = Some day
        ∧ taken (slot Morning day) = Some "08:00 AM".
Proof.
  cbv zeta.
  apply (record_twice_with_fresh_render isoDateValue
           {| isoDate := "2024-03-10"; hours := 8; minutes := 0;
              localeTime := "08:00 AM"; isoDateDaysAgo := λ _, "2024-03-09" |}
           {| isoDate := "2024-03-10"; hours := 8; minutes := 1;
              localeTime := "08:01 AM"; isoDateDaysAgo := λ _, "2024-03-09" |}
           "pill_morning" Morning (initialState ∅));
    [reflexivity | reflexivity | reflexivity | done | constructor | reflexivity
    | reflexivity].
Defined.

Lemma stale_render_accepts_every_time_witness :
  let clock (m : Z) (t : string) :=
    {| isoDate := "2024-03-10"; hours := 8; minutes := m; localeTime := t;
       isoDateDaysAgo := λ _, "2024-03-09" |} in
  let w := initialState ∅ in
  let ds := [ (clock 0 "08:00 AM", "pill_morning", 0.875%float);
              (clock 1 "08:01 AM", "pill_morning", 0.875%float);
              (clock 2 "08:02 AM", "pill_morning", 0.875%float) ] in
  (detections isoDateValue (render w) ds w).1 = replicate (length ds) Accepted.
Proof.
  cbv zeta.
  apply (stale_render_accepts_every_time isoDateValue _ "2024-03-10" "pill_morning"
           Morning);
    [reflexivity | constructor | repeat constructor].
Defined.

Lemma processSuccess_marks_shared_day_witness :
  let now := {| isoDate := "2024-03-10"; hours := 20; minutes := 0;
                localeTime := "08:00 PM"; isoDateDaysAgo := λ _, "2024-03-09" |} in
  let today :=
    {| date := "2024-03-10";
       morning := {| scheduled := "08:00"; taken := Some "08:05 AM";
                     pillType := "pill_morning" |};
       evening := {| scheduled := "20:00"; taken := None;
                     pillType := "pill_morning" |} |} in
  let w := setAdherenceLog [0%nat] (setHeap [today] (initialState ∅)) in
  let r := render w in
  let res := processSuccess isoDateValue r now "pill_evening" Evening w in
  res.1 = Accepted
  ∧ heap res.2 = alter (set_taken Evening (localeTime now)) 0%nat (heap w)
  ∧ slotTaken (heap res.2) Evening
      (findDay (heap res.2) (isoDate now) (r_adherenceLog r)) = true.
Proof.
  cbv zeta.
  apply (processSuccess_marks_shared_day isoDateValue); [reflexivity | reflexivity | done].
Defined.

(** ** What recording never does *)

Lemma readLog_lookup (h : list DayLog) (log : list loc) (i : nat) :
  refsOk h log → readLog h log !! i = log !! i ≫= (λ l, h !! l).
Proof.
  unfold refsOk. revert i. induction log as [|l log IH]; intros i Hok; [done|].
  apply Forall_cons in Hok as [Hl Hok]. rewrite readLog_cons.
  destruct (lookup_lt_is_Some_2 h l Hl) as [d Hd]. rewrite Hd.
  destruct i as [|i]; simpl; [done | by apply IH].
Qed.

Lemma readLog_length (h : list DayLog) (log : list loc) :
  refsOk h log → length (readLog h log) = length log.
Proof.
  unfold refsOk. induction log as [|l log IH]; intros Hok; [done|].
  apply Forall_cons in Hok as [Hl Hok]. rewrite readLog_cons.
  destruct (lookup_lt_is_Some_2 h l Hl) as [d ->]. simpl. by rewrite IH.
Qed.

Lemma keepsDays_refl (days : list DayLog) : keepsDays days days.
Proof. intros i day Hi. by exists day. Qed.

(** The log that the recording branch makes the state, against the log of
    the render. *)
Lemma processSuccess_keepsDays
    (Date_getTime : string → option Z) (r : Render) (now : Now)
    (pillName : string) (ty : DoseType) (w : World) :
  refsOk (heap w) (r_adherenceLog r) →
  slotTaken (heap w) ty (findDay (heap w) (isoDate now) (r_adherenceLog r)) = false →
  let res := processSuccess Date_getTime r now pillName ty w in
  keepsDays (readLog (heap w) (r_adherenceLog r))
            (readLog (heap res.2) (adherenceLog res.2))
  ∧ (length (readLog (heap res.2) (adherenceLog res.2))
     ≤ S (length (readLog (heap w) (r_adherenceLog r))))%nat.
Proof.
  intros Hok Hfree. cbv zeta.
  rewrite (processSuccess_eq _ _ _ _ _ _ Hfree). cbn [fst snd heap adherenceLog].
  destruct (findDay (heap w) (isoDate now) (r_adherenceLog r)) as [l0|] eqn:Hfind.
  - assert (Hok' : refsOk (alter (set_taken ty (localeTime now)) l0 (heap w))
                     (r_adherenceLog r)) by by apply dayKeeps_refsOk_alter.
    split; [|rewrite !readLog_length by done; lia].
    intros i day. rewrite !readLog_lookup by done.
    destruct (r_adherenceLog r !! i) as [l|]; [simpl | done]. intros Hl.
    destruct (decide (l0 = l)) as [->|Hne].
    + rewrite list_lookup_alter_eq, Hl. simpl. eexists. split; [done|].
      split; [apply date_set_taken|]. intros ty' Ht.
      rewrite slot_set_taken_other; [done|]. intros ->.
      unfold slotTaken in Hfree. rewrite Hl in Hfree. congruence.
    + rewrite list_lookup_alter_ne by done. by exists day.
  - assert (Hok' : refsOk (heap w ++ [newDay (isoDate now) (localeTime now) pillName ty])
                     (r_adherenceLog r ++ [length (heap w)])) by by apply refsOk_push.
    split; [|rewrite !readLog_length by done; rewrite length_app; simpl; lia].
    intros i day. rewrite !readLog_lookup by done.
    destruct (r_adherenceLog r !! i) as [l|] eqn:Hi; [simpl | done]. intros Hl.
    rewrite (lookup_app_l_Some _ _ _ _ Hi). simpl.
    rewrite (lookup_app_l_Some _ _ _ _ Hl). by exists day.
Qed.

(** X5.  When [processSuccess] records, the log it makes the state keeps
    every day of the log its render holds, each at its place, with its date
    and with every time, not empty, that its slots held, and is at most one
    day longer: the recording fills an empty slot of today's entry or
    appends a day.  When it does not record, it changes nothing.  So a call
    made in the render of the current state loses nothing of the log of the
    state; days that entered the state after the render was made are not in
    the render's log, and the statement does not speak of them. *)
Theorem processSuccess_keeps_timestamps
    (Date_getTime : string → option Z) (r : Render) (now : Now)
    (pillName : string) (ty : DoseType) (w : World) :
  refsOk (heap w) (r_adherenceLog r) →
  let res := processSuccess Date_getTime r now pillName ty w in
  let kept := readLog (heap res.2) (adherenceLog res.2) in
  ((res.1 = AlreadyTaken ∧ res.2 = w)
   ∨ (res.1 = Accepted
      ∧ keepsDays (readLog (heap w) (r_adherenceLog r)) kept
      ∧ (length kept ≤ S (length (readLog (heap w) (r_adherenceLog r))))%nat))
  ∧ (r_adherenceLog r = adherenceLog w →
     keepsDays (readLog (heap w) (adherenceLog w)) kept).
Proof.
  intros Hok. cbv zeta.
  destruct (processSuccess_cases Date_getTime r now pillName ty w)
    as [[_ ->] | [Hfree Hacc]].
  - split; [by left|]. intros _. apply keepsDays_refl.
  - destruct (processSuccess_keepsDays Date_getTime r now pillName ty w Hok Hfree)
      as [Hkeep Hlen].
    split; [by right|]. by intros <-.
Qed.

Lemma processSuccess_keeps_timestamps_witness :
  let now := {| isoDate := "2024-03-10"; hours := 20; minutes := 30;
                localeTime := "08:30 PM"; isoDateDaysAgo := λ _, "2024-03-09" |} in
  let yesterday :=
    {| date := "2024-03-09";
       morning := {| scheduled := "08:00"; taken := Some "08:15";
                     pillType := "pill_morning" |};
       evening := {| scheduled := "20:00"; taken := None;
                     pillType := "pill_evening" |} |} in
  let today :=
    {| date := "2024-03-10";
       morning := {| scheduled := "08:00"; taken := Some "08:05 AM";
                     pillType := "pill_morning" |};
       evening := {| scheduled := "20:00"; taken := None;
                     pillType := "pill_morning" |} |} in
  let w := setAdherenceLog [0%nat; 1%nat] (setHeap [yesterday; today] (initialState ∅)) in
  let r := render w in
  let res := processSuccess isoDateValue r now "pill_evening" Evening w in
  let kept := readLog (heap res.2) (adherenceLog res.2) in
  kept = [yesterday; set_taken Evening "08:30 PM" today]
  ∧ ((res.1 = AlreadyTaken ∧ res.2 = w)
     ∨ (res.1 = Accepted
        ∧ keepsDays (readLog (heap w) (r_adherenceLog r)) kept
        ∧ (length kept ≤ S (length (readLog (heap w) (r_adherenceLog r))))%nat))
  ∧ (r_adherenceLog r = adherenceLog w →
     keepsDays (readLog (heap w) (adherenceLog w)) kept).
Proof.
  cbv zeta. split; [vm_compute; reflexivity|].
  apply (processSuccess_keeps_timestamps isoDateValue). repeat constructor.
Defined.

(** The invariant on timestamps, at a concrete call. *)
Lemma processSuccess_dayOk_witness :
  let now := {| isoDate := "2024-03-10"; hours := 8; minutes := 0;
                localeTime := "08:00 AM";
                isoDateDaysAgo := λ i, "2024-03-0" +:+ String (ascii_of_nat (Z.to_nat (58 - i))) "" |} in
  let w := loadLocalData now (initialState ∅) in
  Forall dayOk (heap (processSuccess isoDateValue (render w) now "pill_morning" Morning w).2).
Proof.
  cbv zeta. apply processSuccess_dayOk; [done|].
  apply (generateMockAdherence_dayOk
           {| isoDate := "2024-03-10"; hours := 8; minutes := 0;
              localeTime := "08:00 AM";
              isoDateDaysAgo := λ i, "2024-03-0" +:+ String (ascii_of_nat (Z.to_nat (58 - i))) "" |}).
Defined.

(** X7.  A detection either is accepted, and then the counter of taken
    doses, a safe integer in the render, is the render's plus one and the
    scheduled counter is the render's, or it leaves every day object, the
    log, the statistics and the stored document as they were and plays no
    tone. *)
Theorem only_accepted_detection_changes_record
    (Date_getTime : string → option Z) (r : Render) (now : Now)
    (label : string) (c : float) (w : World) :
  isSafeInteger (totalPillsTaken (counters (r_stats r))) = true →
  let res := handleDetection Date_getTime r now label c w in
  (res.1 = Accepted
   ∧ totalPillsTaken (counters (stats res.2))
     = totalPillsTaken (counters (r_stats r)) + 1
   ∧ totalPillsScheduled (counters (stats res.2))
     = totalPillsScheduled (counters (r_stats r)))
  ∨ (res.1 ≠ Accepted
     ∧ heap res.2 = heap w
     ∧ adherenceLog res.2 = adherenceLog w
     ∧ stats res.2 = stats w
     ∧ localStorage res.2 = localStorage w
     ∧ soundsPlayed res.2 = soundsPlayed w).
Proof.
  intros _. cbv zeta. unfold handleDetection.
  destruct (ignoredLabel label); [right; by split_and!|].
  destruct (checkPillValidity now label) as [[] [ty|]]; cbn [isValid vtype].
  - set (w1 := setAlert _ w).
    destruct (processSuccess_cases Date_getTime r now label ty w1)
      as [[_ ->] | [Hfree _]].
    + right. unfold soundsPlayed. cbn. rewrite List.filter_app. simpl.
      rewrite app_nil_r. by split_and!.
    + left. rewrite (processSuccess_eq _ _ _ _ _ _ Hfree). by cbn.
  - right. unfold soundsPlayed. cbn. rewrite List.filter_app. simpl.
    rewrite app_nil_r. by split_and!.
  - right. unfold soundsPlayed.
    destruct (looksLikePill label); cbn; rewrite List.filter_app; simpl;
      rewrite app_nil_r; by split_and!.
  - right. unfold soundsPlayed.
    destruct (looksLikePill label); cbn; rewrite List.filter_app; simpl;
      rewrite app_nil_r; by split_and!.
Qed.

Lemma only_accepted_detection_changes_record_witness :
  let now := {| isoDate := "2024-03-10"; hours := 8; minutes := 0;
                localeTime := "08:00 AM"; isoDateDaysAgo := λ _, "2024-03-09" |} in
  let w := setStats {| counters := mockCounters; adherenceLogProp := None |}
             (initialState ∅) in
  let r := render w in
  let res := handleDetection isoDateValue r now "pill_morning" 0.875%float w in
  (res.1 = Accepted ∧ totalPillsTaken (counters (stats res.2)) = 48)
  ∧ ((res.1 = Accepted
      ∧ totalPillsTaken (counters (stats res.2))
        = totalPillsTaken (counters (r_stats r)) + 1
      ∧ totalPillsScheduled (counters (stats res.2))
        = totalPillsScheduled (counters (r_stats r)))
     ∨ (res.1 ≠ Accepted
        ∧ heap res.2 = heap w
        ∧ adherenceLog res.2 = adherenceLog w
        ∧ stats res.2 = stats w
        ∧ localStorage res.2 = localStorage w
        ∧ soundsPlayed res.2 = soundsPlayed w)).
Proof.
  cbv zeta. split; [split; vm_compute; reflexivity|].
  apply (only_accepted_detection_changes_record isoDateValue). reflexivity.
Defined.

(** ** Storing and reading back *)

Lemma readLog_heap_grow (h more : list DayLog) (log : list loc) :
  refsOk h log → readLog (h ++ more) log = readLog h log.
Proof.
  unfold refsOk, readLog. induction log as [|l log IH]; intros Hok; [done|].
  apply Forall_cons in Hok as [Hl Hok]. specialize (IH Hok). simpl.
  rewrite lookup_app_l by done. unfold omap in IH. by rewrite IH.
Qed.

(** A session that starts over a stored document shows the document and
    writes nothing. *)
Lemma restart_reads_document (now : Now) (w : World) (doc : StoredDoc) :
  localStorage w !! DATA_KEY = Some (Json doc) →
  readLog (heap (restart now w)) (adherenceLog (restart now w)) = doc_adherenceLog doc
  ∧ counters (stats (restart now w))
    = {| currentStreak := doc_currentStreak doc;
         totalPillsTaken := doc_totalPillsTaken doc;
         totalPillsScheduled := doc_totalPillsScheduled doc |}
  ∧ adherenceLogProp (stats (restart now w)) = None
  ∧ localStorage (restart now w) = localStorage w.
Proof.
  intros Hdoc. unfold restart, loadLocalData.
  cbn [localStorage initialState]. rewrite Hdoc.
  pose proof (readLog_allocAll (doc_adherenceLog doc) []) as H.
  cbn [heap initialState].
  destruct (allocAll (doc_adherenceLog doc) []) as [h log]. by cbn.
Qed.

(** X8.  In a session that was itself read from a stored document, an
    accepted detection stores what it shows: the session that starts next
    reads back the same days and the same three counters, and writes
    nothing. *)
Theorem accepted_detection_is_read_back
    (Date_getTime : string → option Z) (r : Render) (now now' : Now)
    (label : string) (ty : DoseType) (c : float) (w : World) :
  checkPillValidity now label = {| isValid := true; vtype := Some ty |} →
  slotTaken (heap w) ty (findDay (heap w) (isoDate now) (r_adherenceLog r)) = false →
  adherenceLogProp (r_stats r) = None →
  let res := handleDetection Date_getTime r now label c w in
  let w2 := restart now' res.2 in
  readLog (heap w2) (adherenceLog w2) = readLog (heap res.2) (adherenceLog res.2)
  ∧ counters (stats w2) = counters (stats res.2)
  ∧ localStorage w2 = localStorage res.2.
Proof.
  intros Hv Hfree Hprop. cbv zeta.
  assert (Hign : ignoredLabel label = false).
  { assert (Hty : vtype (checkPillValidity now label) = Some ty) by by rewrite Hv.
    destruct (vtype_Some _ _ _ Hty) as [[-> _] | [-> _]]; reflexivity. }
  rewrite (handleDetection_valid _ _ _ _ ty) by done.
  set (w1 := setAlert _ w).
  rewrite (processSuccess_eq Date_getTime r now label ty w1 Hfree).
  cbn -[calculateStreak restart].
  set (h := match findDay _ _ _ with Some l => _ | None => _ end).
  set (newLog := match findDay _ _ _ with Some _ => _ | None => _ end).
  set (w3 := emit _ _).
  destruct (restart_reads_document now' w3
              (snapshot h newLog
                 {| counters :=
                      {| currentStreak := calculateStreak Date_getTime (readLog h newLog);
                         totalPillsTaken := totalPillsTaken (counters (r_stats r)) + 1;
                         totalPillsScheduled := totalPillsScheduled (counters (r_stats r)) |};
                    adherenceLogProp := adherenceLogProp (r_stats r) |}))
    as (Hlog & Hst & _ & Hls).
  { subst w3. cbn. apply lookup_insert_eq. }
  rewrite Hlog, Hst, Hls. unfold snapshot. cbn -[calculateStreak]. by rewrite Hprop.
Qed.

Lemma accepted_detection_is_read_back_witness :
  let now := {| isoDate := "2024-03-10"; hours := 8; minutes := 0;
                localeTime := "08:00 AM"; isoDateDaysAgo := λ _, "2024-03-09" |} in
  let w := initialState ∅ in
  let res := handleDetection isoDateValue (render w) now "pill_morning" 0.875%float w in
  let w2 := restart now res.2 in
  readLog (heap w2) (adherenceLog w2) = readLog (heap res.2) (adherenceLog res.2)
  ∧ counters (stats w2) = counters (stats res.2)
  ∧ localStorage w2 = localStorage res.2.
Proof.
  cbv zeta.
  apply (accepted_detection_is_read_back isoDateValue _ _ _ _ Morning);
    reflexivity.
Defined.

(** What a first run leaves in the session. *)
Lemma first_run_state (now0 : Now) (ls : gmap string Blob) :
  ls !! DATA_KEY = None →
  let w0 := loadLocalData now0 (initialState ls) in
  heap w0 = generateMockAdherence now0
  ∧ adherenceLog w0 = seq 0 7
  ∧ stats w0 = {| counters := mockCounters; adherenceLogProp := Some (seq 0 7) |}.
Proof.
  intros Hnone. cbv zeta. unfold loadLocalData.
  cbn [localStorage initialState]. by rewrite Hnone.
Qed.

(** X9.  In a first run, which shows the mock history, a dose accepted on a
    day that the mock history does not contain reaches the log on screen but
    not the stored document: the session that starts next counts 48 doses
    and shows the seven mock days of the first run, without that day. *)
Theorem first_run_record_is_not_stored
    (Date_getTime : string → option Z) (now0 now now' : Now)
    (label : string) (ty : DoseType) (ls : gmap string Blob) :
  ls !! DATA_KEY = None →
  checkPillValidity now label = {| isValid := true; vtype := Some ty |} →
  findDay (generateMockAdherence now0) (isoDate now) (seq 0 7) = None →
  let w0 := loadLocalData now0 (initialState ls) in
  let res := clickTest Date_getTime now label w0 in
  let w2 := restart now' res.2 in
  res.1 = Accepted
  ∧ readLog (heap res.2) (adherenceLog res.2)
    = (generateMockAdherence now0
       ++ [newDay (isoDate now) (localeTime now) label ty])%list
  ∧ readLog (heap w2) (adherenceLog w2) = generateMockAdherence now0
  ∧ totalPillsTaken (counters (stats w2)) = 48.
Proof.
  intros Hnone Hv Hfind. cbv zeta.
  destruct (first_run_state now0 ls Hnone) as (Hh & Hl & Hs).
  set (w0 := loadLocalData now0 (initialState ls)) in *.
  assert (Hign : ignoredLabel label = false).
  { assert (Hty : vtype (checkPillValidity now label) = Some ty) by by rewrite Hv.
    destruct (vtype_Some _ _ _ Hty) as [[-> _] | [-> _]]; reflexivity. }
  unfold clickTest. rewrite (handleDetection_valid _ _ _ _ ty) by done.
  set (w1 := setAlert _ w0).
  assert (Hfind1 : findDay (heap w1) (isoDate now) (r_adherenceLog (render w0)) = None).
  { cbn. by rewrite Hh, Hl. }
  assert (Hfree : slotTaken (heap w1) ty
                    (findDay (heap w1) (isoDate now) (r_adherenceLog (render w0))) = false)
    by by rewrite Hfind1.
  rewrite (processSuccess_eq Date_getTime (render w0) now label ty w1 Hfree).
  rewrite Hfind1.
  cbn [fst snd heap adherenceLog stats localStorage emit setAlert render
       r_adherenceLog r_stats w1 counters adherenceLogProp].
  rewrite Hh, Hl, Hs.
  cbn [counters adherenceLogProp totalPillsTaken totalPillsScheduled mockCounters].
  set (nd := newDay _ _ _ _).
  assert (Hlen : length (generateMockAdherence now0) = 7%nat) by reflexivity.
  assert (Hmock : readLog (generateMockAdherence now0 ++ [nd]) (seq 0 7)
                  = generateMockAdherence now0).
  { pose proof (readLog_allocAll (generateMockAdherence now0) []) as H.
    unfold allocAll in H. simpl fst in H. simpl snd in H.
    rewrite readLog_heap_grow; [exact H|].
    unfold refsOk. rewrite Hlen. repeat constructor; lia. }
  split_and!; [done | | |].
  - rewrite Hlen. unfold readLog. rewrite omap_app.
    fold (readLog (generateMockAdherence now0 ++ [nd]) (seq 0 7)).
    rewrite Hmock. by f_equal.
  - set (w3 := emit _ _).
    edestruct (restart_reads_document now' w3) as (Hlog & _).
    { subst w3. cbn [localStorage emit]. apply lookup_insert_eq. }
    rewrite Hlog. unfold snapshot. cbn [doc_adherenceLog adherenceLogProp].
    exact Hmock.
  - set (w3 := emit _ _).
    edestruct (restart_reads_document now' w3) as (_ & Hst & _).
    { subst w3. cbn [localStorage emit]. apply lookup_insert_eq. }
    rewrite Hst. reflexivity.
Qed.

Lemma first_run_record_is_not_stored_witness :
  let now := {| isoDate := "2024-03-10"; hours := 8; minutes := 0;
                localeTime := "08:00 AM";
                isoDateDaysAgo := λ i, "2024-03-0" +:+ String (ascii_of_nat (Z.to_nat (58 - i))) "" |} in
  let w0 := loadLocalData now (initialState ∅) in
  let res := clickTest isoDateValue now "pill_morning" w0 in
  let w2 := restart now res.2 in
  res.1 = Accepted
  ∧ readLog (heap res.2) (adherenceLog res.2)
    = (generateMockAdherence now
       ++ [newDay (isoDate now) (localeTime now) "pill_morning" Morning])%list
  ∧ readLog (heap w2) (adherenceLog w2) = generateMockAdherence now
  ∧ totalPillsTaken (counters (stats w2)) = 48.
Proof.
  cbv zeta.
  apply (first_run_record_is_not_stored isoDateValue); reflexivity.
Defined.

Lemma first_run_loads_mock_history_aux (now : Now) (ls : gmap string Blob) :
  ls !! DATA_KEY = None →
  localStorage (loadLocalData now (initialState ls)) !! DATA_KEY
  = Some (Json {| doc_adherenceLog := generateMockAdherence now;
                  doc_currentStreak := 5;
                  doc_totalPillsTaken := 47;
                  doc_totalPillsScheduled := 50 |}).
Proof.
  intros Hnone. unfold loadLocalData. cbn [localStorage initialState].
  rewrite Hnone.
  destruct (loadMock_spec now (initialState ls)) as (_ & _ & -> & _).
  apply lookup_insert_eq.
Qed.

(** X10.  The mock history is made once: the session after a first run
    reads back the mock days of the first run, dated from the first run's
    clock, under the same three counters, and writes nothing. *)
Theorem mock_history_is_made_once (now1 now2 : Now) (ls : gmap string Blob) :
  ls !! DATA_KEY = None →
  let w1 := loadLocalData now1 (initialState ls) in
  let w2 := restart now2 w1 in
  readLog (heap w2) (adherenceLog w2) = generateMockAdherence now1
  ∧ counters (stats w2) = mockCounters
  ∧ adherenceLogProp (stats w2) = None
  ∧ localStorage w2 = localStorage w1.
Proof.
  intros Hnone. cbv zeta.
  pose proof (first_run_loads_mock_history_aux now1 ls Hnone) as Hls.
  destruct (restart_reads_document now2 (loadLocalData now1 (initialState ls)) _ Hls)
    as (Hlog & Hst & Hp & Hs).
  by rewrite Hlog, Hst, Hp, Hs.
Qed.

Lemma mock_history_is_made_once_witness :
  let clock (d : string) :=
    {| isoDate := d; hours := 8; minutes := 0; localeTime := "08:00 AM";
       isoDateDaysAgo := λ i, d +:+ "-" +:+ String (ascii_of_nat (Z.to_nat (48 + i))) "" |} in
  let w1 := loadLocalData (clock "2024-03-10") (initialState ∅) in
  let w2 := restart (clock "2024-03-11") w1 in
  readLog (heap w2) (adherenceLog w2) = generateMockAdherence (clock "2024-03-10")
  ∧ counters (stats w2) = mockCounters
  ∧ adherenceLogProp (stats w2) = None
  ∧ localStorage w2 = localStorage w1.
Proof.
  cbv zeta. apply mock_history_is_made_once. reflexivity.
Defined.

(** ** More on the streak *)

Lemma keptRun_le_length (l : list DayLog) : (keptRun l ≤ length l)%nat.
Proof.
  induction l as [|day l IH]; simpl; [lia|]. destruct (anyTaken day); lia.
Qed.

Lemma keptRun_all (l : list DayLog) :
  Forall (λ d, anyTaken d = true) l → keptRun l = length l.
Proof.
  induction 1 as [|day l Hday _ IH]; simpl; [done|]. by rewrite Hday, IH.
Qed.

(** X11.  The streak is never negative and never more than the number of
    days in the log, whatever the dates are and whether they parse. *)
Theorem calculateStreak_bounds
    (Date_getTime : string → option Z) (logs : list DayLog) :
  0 ≤ calculateStreak Date_getTime logs ≤ Z.of_nat (length logs).
Proof.
  unfold calculateStreak. rewrite streakLoop_keptRun.
  pose proof (keptRun_le_length (sortWith (byDateDesc Date_getTime) logs)) as H.
  pose proof (Permutation_length (sortWith_perm Date_getTime logs)) as Hlen. lia.
Qed.

(** X12.  When every day of the log has a dose taken, the streak is the
    number of days, in whatever order the days are stored and whatever
    their dates are. *)
Theorem calculateStreak_all_kept
    (Date_getTime : string → option Z) (logs : list DayLog) :
  Forall (λ d, anyTaken d = true) logs →
  calculateStreak Date_getTime logs = Z.of_nat (length logs).
Proof.
  intros Hall. unfold calculateStreak. rewrite streakLoop_keptRun.
  rewrite keptRun_all by (by rewrite sortWith_perm).
  by rewrite (Permutation_length (sortWith_perm Date_getTime logs)).
Qed.

Lemma calculateStreak_all_kept_witness :
  let slotOf (t : option string) :=
    {| scheduled := "08:00"; taken := t; pillType := "pill_morning" |} in
  let logs :=
    [ {| date := "2024-03-08"; morning := slotOf (Some "08:05 AM"); evening := slotOf None |};
      {| date := "not a date"; morning := slotOf None; evening := slotOf (Some "08:10 PM") |} ] in
  calculateStreak isoDateValue logs = Z.of_nat (length logs).
Proof.
  cbv zeta. apply calculateStreak_all_kept. repeat constructor.
Defined.

(** X13.  The first-run statistics are not the streak of the first-run
    log: every mock day has a dose taken, so [calculateStreak] gives 7 on
    the mock history under any reading of its dates, while the current
    streak that is shown and stored with it is 5. *)
Theorem mock_streak_is_not_the_streak_of_the_mock_log
    (Date_getTime : string → option Z) (now : Now) (w : World) :
  calculateStreak Date_getTime (generateMockAdherence now) = 7
  ∧ readLog (heap (loadMock now w)) (adherenceLog (loadMock now w))
    = generateMockAdherence now
  ∧ currentStreak (counters (stats (loadMock now w))) = 5.
Proof.
  destruct (loadMock_spec now w) as (Hlog & Hst & _).
  rewrite Hlog, Hst. split_and!; try done.
  unfold calculateStreak. rewrite streakLoop_keptRun.
  rewrite keptRun_all.
  - by rewrite (Permutation_length (sortWith_perm Date_getTime _)).
  - rewrite sortWith_perm. repeat constructor.
Qed.

(** X14.  For logs whose dates are valid and pairwise different, the streak
    does not depend on the order in which the days are stored. *)
Theorem calculateStreak_order_independent
    (Date_getTime : string → option Z) (logs logs' : list DayLog) :
  logs ≡ₚ logs' →
  Forall (λ d, is_Some (Date_getTime (date d))) logs →
  (∀ a b, a ∈ logs → b ∈ logs →
          Date_getTime (date a) = Date_getTime (date b) → a = b) →
  calculateStreak Date_getTime logs = calculateStreak Date_getTime logs'.
Proof.
  intros Hperm Hvalid Hinj. unfold calculateStreak. f_equal.
  apply (StronglySorted_unique_strong (descends Date_getTime)).
  - intros a b Ha Hb Hab Hba.
    rewrite sortWith_perm in Ha. rewrite sortWith_perm, <- Hperm in Hb.
    apply Hinj; [done | done |]. unfold descends in Hab, Hba.
    destruct (Date_getTime (date a)), (Date_getTime (date b)); try done.
    f_equal. lia.
  - by apply sortWith_sorted.
  - apply sortWith_sorted. by rewrite <- Hperm.
  - by rewrite !sortWith_perm.
Qed.

Lemma calculateStreak_order_independent_witness :
  let slotOf (t : option string) :=
    {| scheduled := "08:00"; taken := t; pillType := "pill_morning" |} in
  let a := {| date := "2024-03-10"; morning := slotOf (Some "08:05 AM"); evening := slotOf None |} in
  let b := {| date := "2024-03-09"; morning := slotOf None; evening := slotOf None |} in
  let c := {| date := "2024-03-08"; morning := slotOf None; evening := slotOf (Some "08:10 PM") |} in
  calculateStreak isoDateValue [c; a; b] = 1
  ∧ calculateStreak isoDateValue [c; a; b] = calculateStreak isoDateValue [a; b; c].
Proof.
  cbv zeta. split; [reflexivity|].
  apply calculateStreak_order_independent.
  - apply Permutation_cons_append with (l := [_; _]).
  - repeat constructor; by eexists.
  - intros x y Hx Hy.
    repeat (apply elem_of_cons in Hx as [->|Hx]); try (by apply elem_of_nil in Hx);
    repeat (apply elem_of_cons in Hy as [->|Hy]); try (by apply elem_of_nil in Hy);
    vm_compute; intros H; (reflexivity || discriminate H).
Defined.

(** ** More on a tick *)

(** X15.  When the classifier returns no candidate, or none with a positive
    probability, the tick clears the canvas, sets the readout to [no_pill]
    with confidence 0, and does nothing else: no box, no alert, no timer, no
    change of the record. *)
Theorem tick_without_candidate_is_idle
    (Date_getTime : string → option Z) (r : Render) (now : Now)
    (predictions : list Prediction) (w : World) :
  Forall (λ q, (0 <? probability q)%float = false) predictions →
  runPrediction Date_getTime r now (Some predictions) w
  = setPrediction ("no_pill", 0%float) (emit ClearCanvas w).
Proof.
  intros Hall. unfold runPrediction.
  rewrite (selectBest_placeholder predictions Hall). reflexivity.
Qed.

Lemma tick_without_candidate_is_idle_witness :
  let now := {| isoDate := "2024-03-10"; hours := 8; minutes := 0;
                localeTime := "08:00 AM"; isoDateDaysAgo := λ _, "2024-03-09" |} in
  let w := initialState ∅ in
  runPrediction isoDateValue (render w) now (Some []) w
  = setPrediction ("no_pill", 0%float) (emit ClearCanvas w).
Proof.
  cbv zeta. apply tick_without_candidate_is_idle. constructor.
Defined.

Lemma isValid_iff (now : Now) (label : string) :
  isValid (checkPillValidity now label) = true
  ↔ (label = "pill_morning" ∧ 7 ≤ hours now ≤ 9)
    ∨ (label = "pill_evening" ∧ 19 ≤ hours now ≤ 21).
Proof.
  unfold checkPillValidity, PILL_TYPES_MORNING, PILL_TYPES_EVENING.
  destruct (Str.eqb label "pill_morning") eqn:Em.
  { apply StrFacts.eqb_eq in Em. subst label. cbn [isValid].
    rewrite andb_true_iff, !Z.leb_le. intuition (try done; lia). }
  apply StrFacts.eqb_neq in Em.
  destruct (Str.eqb label "pill_evening") eqn:Ee.
  { apply StrFacts.eqb_eq in Ee. subst label. cbn [isValid].
    rewrite andb_true_iff, !Z.leb_le. intuition (try done; lia). }
  apply StrFacts.eqb_neq in Ee. cbn [isValid]. intuition done.
Qed.

Lemma boxes_app (es es' : list Effect) :
  boxes (es ++ es') = (boxes es ++ boxes es')%list.
Proof. apply omap_app. Qed.

(** [handleDetection] draws nothing. *)
Lemma handleDetection_boxes
    (Date_getTime : string → option Z) (r : Render) (now : Now)
    (label : string) (c : float) (w : World) :
  boxes (effects (handleDetection Date_getTime r now label c w).2) = boxes (effects w).
Proof.
  unfold handleDetection.
  destruct (ignoredLabel label); [done|].
  destruct (checkPillValidity now label) as [[] [ty|]]; cbn [isValid vtype].
  - set (w1 := setAlert _ w).
    destruct (processSuccess_cases Date_getTime r now label ty w1)
      as [[_ ->] | [Hfree _]].
    + cbn. rewrite boxes_app. simpl. by rewrite app_nil_r.
    + rewrite (processSuccess_eq _ _ _ _ _ _ Hfree). cbn.
      rewrite !boxes_app. simpl. by rewrite !app_nil_r.
  - cbn. rewrite boxes_app. simpl. by rewrite app_nil_r.
  - destruct (looksLikePill label); cbn; rewrite boxes_app; simpl;
      by rewrite app_nil_r.
  - destruct (looksLikePill label); cbn; rewrite boxes_app; simpl;
      by rewrite app_nil_r.
Qed.

(** X16.  A tick draws at most one box, around the winning candidate: none
    when the winner is [no_pill], and otherwise one that is green exactly
    when the winner is [pill_morning] at an hour from 7 to 9 or
    [pill_evening] at an hour from 19 to 21, whatever the confidence and
    whatever the record holds. *)
Theorem tick_draws_the_winner
    (Date_getTime : string → option Z) (r : Render) (now : Now)
    (predictions : list Prediction) (w : World) :
  let best := selectBest predictions in
  let w' := runPrediction Date_getTime r now (Some predictions) w in
  ∃ new, boxes (effects w') = (boxes (effects w) ++ new)%list
    ∧ (className best = "no_pill" → new = [])
    ∧ (className best ≠ "no_pill" →
       ∃ green, new = [(className best, probability best, green)]
         ∧ (green = true
            ↔ (className best = "pill_morning" ∧ 7 ≤ hours now ≤ 9)
              ∨ (className best = "pill_evening" ∧ 19 ≤ hours now ≤ 21))).
Proof.
  cbv zeta. unfold runPrediction.
  set (best := selectBest predictions).
  set (w1 := setPrediction _ (drawOverlay now (className best) (probability best) w)).
  assert (Hw1 : boxes (effects w1)
                = (boxes (effects w) ++
                   (if Str.eqb (className best) "no_pill" then []
                    else [(className best, probability best,
                           isValid (checkPillValidity now (className best)))]))%list).
  { subst w1. unfold drawOverlay.
    destruct (Str.eqb (className best) "no_pill"); cbn;
      rewrite !boxes_app; simpl; by rewrite ?app_nil_r. }
  eexists. split.
  { destruct (CONFIDENCE_THRESHOLD <? probability best)%float;
      [rewrite handleDetection_boxes|]; exact Hw1. }
  destruct (Str.eqb (className best) "no_pill") eqn:E.
  - apply StrFacts.eqb_eq in E. split; [done | by intros []].
  - apply StrFacts.eqb_neq in E. split; [done|]. intros _.
    eexists. split; [done|]. apply isValid_iff.
Qed.

(** ** More on the reminder sweep *)

(** X17.  One sweep calls the notification collaborator at most once, and
    what the browser then shows is that one notification when the
    permission is ["granted"] and nothing under any other permission. *)
Theorem sweep_shows_at_most_one_notification
    (permission : string) (r : Render) (now : Now) (w : World) :
  ∃ fired,
    effects (checkReminders r now w) = (effects w ++ fired)%list
    ∧ (length fired ≤ 1)%nat
    ∧ (permission = "granted" →
       length (shownNotifications permission fired) = length fired)
    ∧ (permission ≠ "granted" → shownNotifications permission fired = []).
Proof.
  destruct (checkReminders_effects r now w) as (Heff & _).
  eexists. split; [exact Heff|].
  unfold shownNotifications, sendNotification.
  destruct (Z.eqb_spec (hours now) 8) as [H8|H8];
    destruct (Z.eqb_spec (hours now) 20) as [H20|H20]; try lia;
    cbn [andb];
    repeat match goal with
           | |- context [if ?b then [_] else []] => destruct b
           end;
    simpl; (split; [lia|]);
    (split; [intros ->; reflexivity
            |intros H; apply StrFacts.eqb_neq in H; by rewrite ?H]).
Qed.

(** X18.  After a click on a test button inside the window of its slot,
    whether the dose was accepted or found already taken, the sweep of the
    next render sends no reminder for that slot on that day. *)
Theorem recorded_dose_is_not_reminded
    (Date_getTime : string → option Z) (now now' : Now)
    (label : string) (ty : DoseType) (w : World) :
  checkPillValidity now label = {| isValid := true; vtype := Some ty |} →
  refsOk (heap w) (adherenceLog w) →
  localeTime now ≠ "" →
  isoDate now' = isoDate now →
  let res := clickTest Date_getTime now label w in
  ∃ fired,
    effects (checkReminders (render res.2) now' res.2) = (effects res.2 ++ fired)%list
    ∧ SendNotification ty ∉ fired.
Proof.
  intros Hv Hok Htime Hdate. cbv zeta.
  set (res := clickTest Date_getTime now label w).
  assert (Htaken : slotTaken (heap res.2) ty
                     (findDay (heap res.2) (isoDate now') (adherenceLog res.2)) = true).
  { rewrite Hdate. subst res. unfold clickTest.
    assert (Hign : ignoredLabel label = false).
    { assert (Hty : vtype (checkPillValidity now label) = Some ty) by by rewrite Hv.
      destruct (vtype_Some _ _ _ Hty) as [[-> _] | [-> _]]; reflexivity. }
    rewrite (handleDetection_valid _ _ _ _ ty) by done.
    set (w1 := setAlert _ w).
    destruct (processSuccess_cases Date_getTime (render w) now label ty w1)
      as [[Ht ->] | [Hfree _]]; [exact Ht|].
    destruct (processSuccess_accepted Date_getTime (render w) now label ty w1 Hok Hfree)
      as (_ & _ & (day & Hday & Ht) & _).
    cbn [fst snd heap adherenceLog emit].
    by apply slotTaken_todayLog with day (localeTime now). }
  destruct (checkReminders_effects (render res.2) now' res.2) as (Heff & _).
  eexists. split; [exact Heff|]. clear Heff.
  cbn [render r_adherenceLog]. rewrite elem_of_app.
  destruct ty; rewrite Htaken, andb_false_r; intros [H|H].
  - by apply elem_of_nil in H.
  - revert H. destruct (_ && _ && negb _); intros H;
      [apply list_elem_of_singleton in H | apply elem_of_nil in H]; done.
  - revert H. destruct (_ && _ && negb _); intros H;
      [apply list_elem_of_singleton in H | apply elem_of_nil in H]; done.
  - by apply elem_of_nil in H.
Qed.

Lemma recorded_dose_is_not_reminded_witness :
  let clock (h m : Z) (t : string) :=
    {| isoDate := "2024-03-10"; hours := h; minutes := m; localeTime := t;
       isoDateDaysAgo := λ _, "2024-03-09" |} in
  let w := initialState ∅ in
  let res := clickTest isoDateValue (clock 8 0 "08:00 AM") "pill_morning" w in
  effects (checkReminders (render res.2) (clock 8 15 "08:15 AM") res.2) = effects res.2
  ∧ ∃ fired,
    effects (checkReminders (render res.2) (clock 8 15 "08:15 AM") res.2)
    = (effects res.2 ++ fired)%list
    ∧ SendNotification Morning ∉ fired.
Proof.
  cbv zeta. split; [vm_compute; reflexivity|].
  apply (recorded_dose_is_not_reminded isoDateValue
           {| isoDate := "2024-03-10"; hours := 8; minutes := 0;
              localeTime := "08:00 AM"; isoDateDaysAgo := λ _, "2024-03-09" |}
           {| isoDate := "2024-03-10"; hours := 8; minutes := 15;
              localeTime := "08:15 AM"; isoDateDaysAgo := λ _, "2024-03-09" |}
           "pill_morning" Morning (initialState ∅));
    [reflexivity | constructor | done | reflexivity].
Defined.

(** ** The life of an alert *)



(** X20.  The success alert of an accepted detection outlives the
    three-second timer that the detection also sets, and is cleared by its
    own five-second timer. *)
Theorem success_alert_lasts_five_seconds
    (Date_getTime : string → option Z) (r : Render) (now : Now)
    (label : string) (ty : DoseType) (c : float) (w : World) :
  checkPillValidity now label = {| isValid := true; vtype := Some ty |} →
  slotTaken (heap w) ty (findDay (heap w) (isoDate now) (r_adherenceLog r)) = false →
  let res := handleDetection Date_getTime r now label c w in
  timers (effects res.2)
  = (timers (effects w) ++ [(ClearAlert, 5000); (ClearAlertIfInfo, 3000)])%list
  ∧ alert (fireTimer ClearAlertIfInfo res.2) = Some (takenAlert label)
  ∧ alert (fireTimer ClearAlert (fireTimer ClearAlertIfInfo res.2)) = None.
Proof.
  intros Hv Hfree. cbv zeta.
  assert (Hign : ignoredLabel label = false).
  { assert (Hty : vtype (checkPillValidity now label) = Some ty) by by rewrite Hv.
    destruct (vtype_Some _ _ _ Hty) as [[-> _] | [-> _]]; reflexivity. }
  rewrite (handleDetection_valid _ _ _ _ ty) by done.
  set (w1 := setAlert _ w).
  rewrite (processSuccess_eq Date_getTime r now label ty w1 Hfree).
  cbn -[calculateStreak]. split_and!; try done.
  unfold timers. rewrite !omap_app. simpl. by rewrite <- app_assoc.
Qed.

Lemma success_alert_lasts_five_seconds_witness :
  let now := {| isoDate := "2024-03-10"; hours := 8; minutes := 0;
                localeTime := "08:00 AM"; isoDateDaysAgo := λ _, "2024-03-09" |} in
  let w := initialState ∅ in
  let res := handleDetection isoDateValue (render w) now "pill_morning" 0.875%float w in
  timers (effects res.2)
  = (timers (effects w) ++ [(ClearAlert, 5000); (ClearAlertIfInfo, 3000)])%list
  ∧ alert (fireTimer ClearAlertIfInfo res.2) = Some (takenAlert "pill_morning")
  ∧ alert (fireTimer ClearAlert (fireTimer ClearAlertIfInfo res.2)) = None.
Proof.
  cbv zeta.
  apply (success_alert_lasts_five_seconds isoDateValue _ _ _ Morning); reflexivity.
Defined.

(** * Properties of the controls *)

Module DetectorFacts.
Import Detector.

Lemma endsWith_spec (s : string) (c : ascii) :
  endsWith s c = true ↔ ∃ pre, s = pre +:+ String c "".
Proof.
  induction s as [|a s IH]; simpl.
  - split; [done|]. intros [[|??] H]; inversion H.
  - destruct s as [|b s].
    + rewrite Ascii.eqb_eq. split.
      * intros ->. by exists "".
      * intros [[|a' [|??]] H]; inversion H; done.
    + rewrite IH. split.
      * intros [pre ->]. by exists (String a pre).
      * intros [[|a' pre] H]; inversion H. by exists pre.
Qed.

Lemma endsWith_append (s : string) (c : ascii) :
  endsWith (s +:+ String c "") c = true.
Proof. apply endsWith_spec. by exists s. Qed.

Lemma append_assoc (a b c : string) : (a +:+ b) +:+ c = a +:+ (b +:+ c).
Proof.
  induction a as [|x a IH]; [done|].
  cbv [String.append]. fold String.append. by f_equal.
Qed.

(** X21.  The two files of a model are asked for under one base address:
    the URL itself when it ends with a slash, the URL with one slash added
    when it does not, so that the base always ends with exactly the slash
    that separates it from the file name.  For the empty URL the base is the
    root ["/"]. *)
Theorem model_files_share_a_base (url : string) :
  ∃ base,
    (if endsWith url "/"%char then base = url else base = url +:+ "/")
    ∧ endsWith base "/"%char = true
    ∧ checkpointOf url = base +:+ "model.json"
    ∧ metadataOf url = base +:+ "metadata.json"
    ∧ (url = "" → base = "/").
Proof.
  unfold checkpointOf, metadataOf.
  destruct (endsWith url "/"%char) eqn:E.
  - exists url. split_and!; try done. intros ->. discriminate E.
  - exists (url +:+ "/"). split_and!; try done.
    + apply endsWith_append.
    + by rewrite append_assoc.
    + by rewrite append_assoc.
    + by intros ->.
Qed.

Section WithHost.

Variable tmImage_load : string → string → bool.

(** [loadModel] touches neither the detection flag nor the intervals. *)
Lemma loadModel_controls (url : string) (c : Controls) (w : World) :
  let s := loadModel tmImage_load url (c, w) in
  isModelLoading s.1 = false
  ∧ isDetecting s.1 = isDetecting c
  ∧ detectionInterval s.1 = detectionInterval c
  ∧ intervals s.1 = intervals c
  ∧ nextHandle s.1 = nextHandle c
  ∧ cameraState s.1 = cameraState c
  ∧ model s.1 = (if tmImage_load (checkpointOf url) (metadataOf url)
                 then Some {| checkpoint := checkpointOf url; metadata := metadataOf url |}
                 else model c)
  ∧ heap s.2 = heap w ∧ adherenceLog s.2 = adherenceLog w ∧ stats s.2 = stats w
  ∧ localStorage s.2 = localStorage w ∧ modelUrl s.2 = modelUrl w.
Proof.
  cbv zeta. unfold loadModel.
  by destruct (tmImage_load (checkpointOf url) (metadataOf url)).
Qed.

(** X22.  When the files of a newly entered URL do not load, the URL is
    stored all the same and the next session will start from it, while the
    classifier that was loaded before stays in place; the warning is up and
    the loading flag is down. *)
Theorem failed_load_keeps_the_model_and_stores_the_url
    (newUrl : string) (c : Controls) (w : World) :
  tmImage_load (checkpointOf newUrl) (metadataOf newUrl) = false →
  let s := Detector.updateModelUrl tmImage_load newUrl (c, w) in
  model s.1 = model c
  ∧ isModelLoading s.1 = false
  ∧ (type <$> alert s.2) = Some warning
  ∧ localStorage s.2 !! MODEL_URL_KEY = Some (Text newUrl)
  ∧ modelUrl (initialState (localStorage s.2)) = newUrl
  ∧ timers (effects s.2) = timers (effects w).
Proof.
  intros Hfail. cbv zeta. unfold Detector.updateModelUrl, loadModel.
  rewrite Hfail. cbn. rewrite lookup_insert_eq. by split_and!.
Qed.

Lemma click_oneInterval (a : Click) (c : Controls) (w : World) :
  oneInterval c → oneInterval (click tmImage_load a (c, w)).1.
Proof.
  unfold oneInterval. intros (Hon & Hoff & Href & Hnext).
  destruct a as [| |url]; unfold click.
  - unfold Detector.startDetection.
    destruct (model c); cbn [fst]; [|done].
    destruct (isDetecting c) eqn:E; cbn [negb fst]; [by rewrite E|].
    cbn [setInterval setIsDetecting isDetecting detectionInterval intervals nextHandle].
    rewrite (Hoff eq_refl). split_and!.
    + intros _. exists (nextHandle c). split_and!; [done | done | lia].
    + done.
    + intros id [= <-]. lia.
    + lia.
  - unfold Detector.stopDetection.
    cbn [setIsDetecting detectionInterval].
    assert (Hempty : ∀ id, detectionInterval c = Some id →
              List.filter (λ i, negb (Nat.eqb i id)) (intervals c) = []).
    { intros id Hid. destruct (isDetecting c) eqn:E.
      - destruct (Hon eq_refl) as (id' & Hid' & -> & _).
        assert (id' = id) as -> by congruence. simpl. by rewrite Nat.eqb_refl.
      - by rewrite (Hoff eq_refl). }
    assert (Hnone : detectionInterval c = None → intervals c = []).
    { intros Hid. destruct (isDetecting c) eqn:E; [|by apply Hoff].
      destruct (Hon eq_refl) as (id' & Hid' & _). congruence. }
    destruct (detectionInterval c) as [id|] eqn:Eid.
    + destruct (Href id eq_refl) as [Hpos Hlt].
      destruct (Nat.eqb_spec id 0) as [->|_]; [lia|].
      cbn [fst clearInterval setIsDetecting isDetecting detectionInterval
           intervals nextHandle].
      rewrite Eid, (Hempty id eq_refl). by split_and!.
    + cbn [fst setIsDetecting isDetecting detectionInterval intervals nextHandle].
      rewrite Eid, (Hnone eq_refl). by split_and!.
  - unfold Detector.updateModelUrl.
    match goal with
    | |- context [loadModel _ _ (c, ?w1)] =>
        destruct (loadModel_controls url c w1) as (_ & Hd & Hi & Hl & Hn & _)
    end.
    cbv zeta in Hd, Hi, Hl, Hn. rewrite Hd, Hi, Hl, Hn. done.
Qed.

(** X23.  Whatever the user clicks and enters, in whatever order, and
    whether models load or not, at most one sampling interval is running:
    exactly the one the ref holds while detection is on, and none while it
    is off. *)
Theorem at_most_one_sampling_interval (l : list Click) (w : World) :
  oneInterval (clicks tmImage_load l (initialControls, w)).1.
Proof.
  assert (H0 : oneInterval initialControls).
  { unfold oneInterval. simpl. split_and!; try done; lia. }
  revert H0. generalize initialControls. revert w.
  induction l as [|a l IH]; intros w c Hc; [done|].
  unfold clicks. simpl.
  pose proof (click_oneInterval a c w Hc) as H.
  destruct (click tmImage_load a (c, w)) as [c' w']. by apply IH.
Qed.





Lemma loadLocalData_modelUrl (now : Now) (w : World) :
  modelUrl (loadLocalData now w) = modelUrl w.
Proof.
  unfold loadLocalData.
  destruct (localStorage w !! DATA_KEY) as [[doc|text]|].
  - by destruct (allocAll (doc_adherenceLog doc) (heap w)).
  - destruct (Str.eqb text ""); [|done].
    by destruct (loadMock_spec now w) as (_ & _ & _ & ->).
  - by destruct (loadMock_spec now w) as (_ & _ & _ & ->).
Qed.



End WithHost.

Lemma failed_load_keeps_the_model_and_stores_the_url_witness :
  let old := {| checkpoint := "https://example.org/a/model.json";
                metadata := "https://example.org/a/metadata.json" |} in
  let c := setModel (Some old) initialControls in
  let s := Detector.updateModelUrl (λ _ _, false) "https://example.org/b"
             (c, initialState ∅) in
  model s.1 = model c
  ∧ isModelLoading s.1 = false
  ∧ (type <$> alert s.2) = Some warning
  ∧ localStorage s.2 !! MODEL_URL_KEY = Some (Text "https://example.org/b")
  ∧ modelUrl (initialState (localStorage s.2)) = "https://example.org/b"
  ∧ timers (effects s.2) = timers (effects (initialState ∅)).
Proof.
  cbv zeta.
  apply (failed_load_keeps_the_model_and_stores_the_url (λ _ _, false)). reflexivity.
Defined.



End DetectorFacts.

(** X26.  A model URL that was entered is what the next session starts
    from, also after detections and after a reset of the data in between:
    neither [handleDetection] nor [clearData] nor [loadLocalData] touches
    it.  The settings panel of that session is open exactly when the URL is
    empty. *)
Theorem model_url_survives
    (Date_getTime : string → option Z) (url : string) (r : Render)
    (now now' : Now) (label : string) (c : float) (confirmed : bool) (w : World) :
  let w1 := updateModelUrl url w in
  let w2 := (handleDetection Date_getTime r now label c w1).2 in
  let w3 := restart now' (clearData confirmed w2) in
  modelUrl w3 = url
  ∧ localStorage w3 !! MODEL_URL_KEY = Some (Text url)
  ∧ Detector.initialShowSettings w3 = Str.eqb url "".
Proof.
  cbv zeta.
  set (w1 := updateModelUrl url w).
  assert (H1 : localStorage w1 !! MODEL_URL_KEY = Some (Text url)).
  { subst w1. cbn. apply lookup_insert_eq. }
  assert (H2 : localStorage (handleDetection Date_getTime r now label c w1).2
                 !! MODEL_URL_KEY = Some (Text url)).
  { unfold handleDetection.
    destruct (ignoredLabel label); [done|].
    destruct (checkPillValidity now label) as [[] [ty|]]; cbn [isValid vtype].
    - set (w1' := setAlert _ w1).
      destruct (processSuccess_cases Date_getTime r now label ty w1')
        as [[_ ->] | [Hfree _]]; [done|].
      rewrite (processSuccess_eq _ _ _ _ _ _ Hfree). cbn -[calculateStreak].
      by rewrite lookup_insert_ne.
    - done.
    - by destruct (looksLikePill label).
    - by destruct (looksLikePill label). }
  set (w2 := (handleDetection Date_getTime r now label c w1).2) in *.
  assert (H3 : localStorage (clearData confirmed w2) !! MODEL_URL_KEY = Some (Text url)).
  { destruct confirmed; [|done]. cbn. by rewrite lookup_delete_ne. }
  set (w2' := clearData confirmed w2) in *.
  assert (Hurl : modelUrl (restart now' w2') = url).
  { unfold restart. rewrite DetectorFacts.loadLocalData_modelUrl. cbn. by rewrite H3. }
  split_and!; [done | | unfold Detector.initialShowSettings; by rewrite Hurl].
  unfold restart, loadLocalData. cbn [localStorage initialState].
  destruct (localStorage w2' !! DATA_KEY) as [[doc|text]|].
  - by destruct (allocAll (doc_adherenceLog doc) _).
  - destruct (Str.eqb text ""); [|done].
    destruct (loadMock_spec now' (initialState (localStorage w2'))) as (_ & _ & -> & _).
    by rewrite lookup_insert_ne.
  - destruct (loadMock_spec now' (initialState (localStorage w2'))) as (_ & _ & -> & _).
    by rewrite lookup_insert_ne.
Qed.

(** * Properties of the dashboard and of the ignored labels *)

Module DashboardFacts.
Import Dashboard.

Lemma statusClass_spec (day : DayLog) :
  (statusClass day = day_none ↔ anyTaken day = false)
  ∧ (statusClass day = day_full
     ↔ truthy (taken (morning day)) = true ∧ truthy (taken (evening day)) = true).
Proof.
  unfold statusClass, takenCount, anyTaken.
  by destruct (truthy (taken (morning day))), (truthy (taken (evening day)));
    simpl; split; split; (done || intros [? ?]; done).
Qed.

(** X27.  The calendar has one cell for each of the last seven days of the
    log, in the order in which the log stores them, and fewer when the log
    is shorter; a cell is of class [day-none] exactly when its day does not
    count for the streak, and of class [day-full] exactly when both slots
    hold a time. *)
Theorem calendar_shows_the_last_seven (h : list DayLog) (log : list loc) :
  let days := readLog h log in
  length (calendar h log) = Nat.min 7 (length days)
  ∧ (∃ older, days = (older ++ lastSeven days)%list
              ∧ length older = (length days - 7)%nat)
  ∧ Forall2 (λ cell day,
               cell.1 = date day
               ∧ (cell.2 = day_none ↔ anyTaken day = false)
               ∧ (cell.2 = day_full
                  ↔ truthy (taken (morning day)) = true
                    ∧ truthy (taken (evening day)) = true))
            (calendar h log) (lastSeven days).
Proof.
  cbv zeta. unfold calendar, lastSeven.
  set (days := readLog h log). split_and!.
  - rewrite length_fmap, length_drop. lia.
  - exists (take (length days - 7) days). split.
    + by rewrite take_drop.
    + rewrite length_take. lia.
  - apply Forall2_fmap_l, Forall_Forall2_diag, Forall_forall.
    intros day _. cbn [fst snd]. split; [done | apply statusClass_spec].
Qed.

(** X28.  The badge of a slot on the dashboard is Pending exactly when a
    detection for that slot, made in the same render, would take the
    recording branch; when the badge shows a time, that time is the stored
    timestamp of today's entry. *)
Theorem badge_pending_iff_recordable
    (Date_getTime : string → option Z) (r : Render) (now : Now)
    (pillName : string) (ty : DoseType) (w : World) :
  (badge (heap w) (isoDate now) (r_adherenceLog r) ty = Pending
   ↔ (processSuccess Date_getTime r now pillName ty w).1 = Accepted)
  ∧ (∀ t, badge (heap w) (isoDate now) (r_adherenceLog r) ty = TakenAt t →
          t ≠ ""
          ∧ ∃ day, todayLog (heap w) (isoDate now) (r_adherenceLog r) = Some day
                 ∧ taken (slot ty day) = Some t).
Proof.
  assert (Hb : badge (heap w) (isoDate now) (r_adherenceLog r) ty = Pending
               ↔ slotTaken (heap w) ty
                   (findDay (heap w) (isoDate now) (r_adherenceLog r)) = false).
  { unfold badge, todayLog, slotTaken.
    destruct (findDay (heap w) (isoDate now) (r_adherenceLog r)) as [l|]; simpl; [|done].
    destruct (heap w !! l) as [day|]; [|done].
    destruct (taken (slot ty day)) as [t|]; [|done].
    by destruct (truthy (Some t)). }
  split.
  - rewrite Hb.
    destruct (processSuccess_cases Date_getTime r now pillName ty w)
      as [[Ht ->] | [Hf ->]]; rewrite ?Ht, ?Hf; by split.
  - intros t. unfold badge, todayLog.
    destruct (findDay (heap w) (isoDate now) (r_adherenceLog r)) as [l|]; simpl; [|done].
    destruct (heap w !! l) as [day|]; [|done].
    destruct (taken (slot ty day)) as [t'|] eqn:Et; [|done].
    destruct (truthy (Some t')) eqn:Etr; [|done].
    intros [= <-]. split; [|by exists day].
    simpl in Etr. apply negb_true_iff in Etr. by apply StrFacts.eqb_neq in Etr.
Qed.

End DashboardFacts.

(** X29.  A detection is ignored exactly when its label is [no_pill],
    [multiple_pills] or [Background Join]: then nothing at all changes, not
    even the alert, at any confidence and hour.  Every other detection
    leaves an alert and sets the three-second timer. *)
Theorem ignored_labels_change_nothing
    (Date_getTime : string → option Z) (r : Render) (now : Now)
    (label : string) (c : float) (w : World) :
  let res := handleDetection Date_getTime r now label c w in
  (res.1 = Ignored
   ↔ label = "no_pill" ∨ label = "multiple_pills" ∨ label = "Background Join")
  ∧ (res.1 = Ignored → res.2 = w)
  ∧ (res.1 ≠ Ignored →
     alert res.2 ≠ None
     ∧ ∃ before, effects res.2 = (before ++ [SetTimeout ClearAlertIfInfo 3000])%list).
Proof.
  cbv zeta.
  assert (Hign : ignoredLabel label = true
                 ↔ label = "no_pill" ∨ label = "multiple_pills"
                   ∨ label = "Background Join").
  { unfold ignoredLabel. rewrite !orb_true_iff, !StrFacts.eqb_eq. tauto. }
  unfold handleDetection.
  destruct (ignoredLabel label) eqn:E.
  { cbn [fst snd]. split_and!; [by rewrite <- Hign | done | done]. }
  assert (Hnot : ¬ (label = "no_pill" ∨ label = "multiple_pills"
                    ∨ label = "Background Join")).
  { rewrite <- Hign. congruence. }
  destruct (checkPillValidity now label) as [[] [ty|]]; cbn [isValid vtype].
  - set (w1 := setAlert _ w).
    destruct (processSuccess_cases Date_getTime r now label ty w1)
      as [[_ ->] | [Hfree _]].
    + cbn [fst snd]. split_and!; [split; [done | tauto] | done |].
      intros _. split; [done | by eexists].
    + rewrite (processSuccess_eq _ _ _ _ _ _ Hfree). cbn [fst snd].
      split_and!; [split; [done | tauto] | done |].
      intros _. split; [done | by eexists].
  - cbn [fst snd]. split_and!; [split; [done | tauto] | done |].
    intros _. split; [done | by eexists].
  - cbn [fst snd]. split_and!; [split; [done | tauto] | done |].
    intros _. destruct (looksLikePill label); (split; [done | by eexists]).
  - cbn [fst snd]. split_and!; [split; [done | tauto] | done |].
    intros _. destruct (looksLikePill label); (split; [done | by eexists]).
Qed.
